(** * Notion database to Jekyll Markdown exporter: a shallow embedding

    This development embeds [_scripts/notion-sync.js] and states the
    behaviour of its four pieces: the heading shifter [shiftHeadings], the
    custom image transformer, the per-record front-matter extraction and the
    top-level run with its environment checks and file writes.

    Conventions.
    - A JavaScript string is the list of its UTF-16 code units ([jsstring]).
    - A property that JavaScript may find [undefined] or [null] has type
      [nullable A]; optional chaining [?.] is [chain], [||] is [or_else].
    - A call that may throw (or an [async] function that may reject) returns
      [result A].
    - The outside world (environment variables, the Notion client, the
      notion-to-md converter, the clock, the file system) enters as Section
      variables; every call to it is recorded in a trace of [event]s. *)

From Stdlib Require Import ZArith List String Ascii DecimalString Lia.
From stdpp Require Import base option list gmap.
Import ListNotations.

Local Open Scope Z_scope.

(** ** JavaScript strings *)

Module JS.

(** A string is its sequence of UTF-16 code units, each in [0, 65535]. *)
Definition jsstring : Type := list Z.

(** An ASCII literal of the source, as code units. *)
Definition js (s : string) : jsstring :=
  List.map (fun a => Z.of_N (N_of_ascii a)) (list_ascii_of_string s).

(** The double quote and the line feed, which the template literals of the
    source contain. *)
Definition dquote : jsstring := [34].
Definition newline : jsstring := [10].

(** [strip_prefix p s] is the rest of [s] after a leading [p], if [s] starts
    with [p]. *)
Fixpoint strip_prefix (p s : jsstring) : option jsstring :=
  match p, s with
  | [], _ => Some s
  | _ :: _, [] => None
  | a :: p', b :: s' => if Z.eqb a b then strip_prefix p' s' else None
  end.

(** [s.replace(/^pat/, rep)] for a pattern that is a literal text anchored at
    the start of the string (no [m] flag) and a replacement without [$]:
    the one leading occurrence is replaced, and a string that does not match
    is returned as it is. *)
Definition replace_at_start (pat rep s : jsstring) : jsstring :=
  match strip_prefix pat s with
  | Some rest => rep ++ rest
  | None => s
  end.

(** [s.replace(/c/g, "")] for a single literal code unit [c]: every
    occurrence is removed. *)
Definition remove_all (c : Z) (s : jsstring) : jsstring :=
  List.filter (fun x => negb (Z.eqb x c)) s.

(** A value that may be [undefined] or [null]. *)
Inductive nullable (A : Type) : Type :=
| Undefined : nullable A
| Null : nullable A
| Has : A -> nullable A.
Arguments Undefined {A}.
Arguments Null {A}.
Arguments Has {A} _.

(** Optional chaining [o?.f]: [undefined] when [o] is [undefined] or
    [null], otherwise the field. *)
Definition chain {A B : Type} (o : nullable A) (f : A -> nullable B)
  : nullable B :=
  match o with
  | Has a => f a
  | _ => Undefined
  end.

(** [arr?.[0]] on an array. *)
Definition first {A : Type} (o : nullable (list A)) : nullable A :=
  match o with
  | Has (a :: _) => Has a
  | _ => Undefined
  end.

(** Truthiness of a value that is a string when present: [undefined],
    [null] and the empty string are falsy. *)
Definition truthy (o : nullable jsstring) : bool :=
  match o with
  | Has (_ :: _) => true
  | _ => false
  end.

(** [o || d] where [o] is a string when present and [d] is a string. *)
Definition or_else (o : nullable jsstring) (d : jsstring) : jsstring :=
  match o with
  | Has (c :: s) => c :: s
  | _ => d
  end.

(** [ToString] of a value that is a string when present, as template
    literals and [+] apply it. *)
Definition to_string (o : nullable jsstring) : jsstring :=
  match o with
  | Undefined => js "undefined"
  | Null => js "null"
  | Has s => s
  end.

(** [Array.prototype.join]: an element that is [undefined] or [null] is
    joined as the empty string. *)
Definition join_element (o : nullable jsstring) : jsstring :=
  match o with
  | Has s => s
  | _ => []
  end.

Fixpoint join (sep : jsstring) (xs : list (nullable jsstring)) : jsstring :=
  match xs with
  | [] => []
  | [x] => join_element x
  | x :: rest => join_element x ++ sep ++ join sep rest
  end.

(** Errors thrown by the program and by the built-ins it calls. *)
Inductive error : Type :=
| Error (message : jsstring)
| TypeError
| URIError
| External (message : jsstring).

Inductive result (A : Type) : Type :=
| Ok : A -> result A
| Throw : error -> result A.
Arguments Ok {A} _.
Arguments Throw {A} _.

End JS.
Import JS.

(** ** The heading shifter *)

(** A block of notion-to-md's intermediate tree: the Notion block type, the
    block's identifier, its own rendered Markdown ([parent]) and its nested
    blocks. *)
#[local] Unset Elimination Schemes.
Inductive MdBlock : Type :=
  mkMdBlock {
    type : jsstring;
    blockId : jsstring;
    parent : jsstring;
    children : list MdBlock
  }.
#[local] Set Elimination Schemes.

(** The new value of [block.parent], by the block's type (the [if] chain of
    [shiftHeadings]). *)
Definition shiftParent (ty p : jsstring) : jsstring :=
  if bool_decide (ty = js "heading_1") then
    replace_at_start (js "# ") (js "## ") p
  else if bool_decide (ty = js "heading_2") then
    replace_at_start (js "## ") (js "### ") p
  else if bool_decide (ty = js "heading_3") then
    replace_at_start (js "### ") (js "#### ") p
  else p.

(** One iteration of the loop of [shiftHeadings]: the block's own text is
    rewritten, then its children are processed when there are any. The
    source mutates the blocks in place; the tree that notion-to-md builds
    shares no block, so the mutation is a tree-to-tree function. *)
Fixpoint shiftBlock (b : MdBlock) : MdBlock :=
  match b with
  | mkMdBlock ty id p cs =>
      mkMdBlock ty id (shiftParent ty p)
        (match cs with
         | [] => []
         | _ :: _ => List.map shiftBlock cs
         end)
  end.

Definition shiftHeadings (blocks : list MdBlock) : list MdBlock :=
  List.map shiftBlock blocks.

(** The block found by following a path of child indices from the root
    list. *)
Fixpoint block_at (blocks : list MdBlock) (path : list nat)
  : option MdBlock :=
  match path with
  | [] => None
  | i :: rest =>
      match blocks !! i with
      | None => None
      | Some b =>
          match rest with
          | [] => Some b
          | _ :: _ => block_at (children b) rest
          end
      end
  end.

(** A text starts with a given prefix. *)
Definition starts_with (p s : jsstring) : Prop := exists rest, s = p ++ rest.

(** The number of [#] at the start of a text. *)
Fixpoint leading_hashes (s : jsstring) : nat :=
  match s with
  | 35 :: s' => S (leading_hashes s')
  | _ => O
  end.

(** A block is a heading whose text carries the prefix of its level. *)
Definition matching_heading (b : MdBlock) : Prop :=
  (type b = js "heading_1" /\ starts_with (js "# ") (parent b)) \/
  (type b = js "heading_2" /\ starts_with (js "## ") (parent b)) \/
  (type b = js "heading_3" /\ starts_with (js "### ") (parent b)).

Definition is_heading (ty : jsstring) : Prop :=
  ty = js "heading_1" \/ ty = js "heading_2" \/ ty = js "heading_3".

(** What is left of a tree when the text of every heading block is blanked:
    everything [shiftHeadings] is not meant to touch. *)
Fixpoint skeleton (b : MdBlock) : MdBlock :=
  match b with
  | mkMdBlock ty id p cs =>
      mkMdBlock ty id
        (if bool_decide (ty = js "heading_1")
            || bool_decide (ty = js "heading_2")
            || bool_decide (ty = js "heading_3") then [] else p)
        (List.map skeleton cs)
  end.

(** ** [encodeURIComponent] *)

(** The code units left as they are: letters, digits and [-_.!~*'()]. *)
Definition uriUnescaped (c : Z) : bool :=
  ((65 <=? c) && (c <=? 90)) || ((97 <=? c) && (c <=? 122)) ||
  ((48 <=? c) && (c <=? 57)) ||
  existsb (Z.eqb c) [45; 95; 46; 33; 126; 42; 39; 40; 41].

Definition is_lead_surrogate (c : Z) : bool := (55296 <=? c) && (c <=? 56319).
Definition is_trail_surrogate (c : Z) : bool := (56320 <=? c) && (c <=? 57343).

(** The code point of a surrogate pair. *)
Definition pair_code_point (lead trail : Z) : Z :=
  (lead - 55296) * 1024 + (trail - 56320) + 65536.

(** The UTF-8 octets of a code point. *)
Definition utf8 (cp : Z) : list Z :=
  if cp <? 128 then [cp]
  else if cp <? 2048 then
    [Z.lor 192 (Z.shiftr cp 6); Z.lor 128 (Z.land cp 63)]
  else if cp <? 65536 then
    [Z.lor 224 (Z.shiftr cp 12);
     Z.lor 128 (Z.land (Z.shiftr cp 6) 63);
     Z.lor 128 (Z.land cp 63)]
  else
    [Z.lor 240 (Z.shiftr cp 18);
     Z.lor 128 (Z.land (Z.shiftr cp 12) 63);
     Z.lor 128 (Z.land (Z.shiftr cp 6) 63);
     Z.lor 128 (Z.land cp 63)].

Definition hex_digit (n : Z) : Z := if n <? 10 then 48 + n else 55 + n.

(** An octet as [%XX], in upper-case hexadecimal. *)
Definition percent (octet : Z) : jsstring :=
  [37; hex_digit (Z.shiftr octet 4); hex_digit (Z.land octet 15)].

Definition percent_all (octets : list Z) : jsstring :=
  List.concat (List.map percent octets).

(** The built-in [encodeURIComponent]: an unescaped code unit is kept, any
    other code point is written as the percent-escapes of its UTF-8 octets,
    and a surrogate that is not part of a pair throws [URIError]. *)
Fixpoint encodeURIComponent (s : jsstring) : result jsstring :=
  match s with
  | [] => Ok []
  | c :: rest =>
      if uriUnescaped c then
        match encodeURIComponent rest with
        | Ok r => Ok (c :: r)
        | Throw e => Throw e
        end
      else if is_trail_surrogate c then Throw URIError
      else if is_lead_surrogate c then
        match rest with
        | d :: rest' =>
            if is_trail_surrogate d then
              match encodeURIComponent rest' with
              | Ok r => Ok (percent_all (utf8 (pair_code_point c d)) ++ r)
              | Throw e => Throw e
              end
            else Throw URIError
        | [] => Throw URIError
        end
      else
        match encodeURIComponent rest with
        | Ok r => Ok (percent_all (utf8 c) ++ r)
        | Throw e => Throw e
        end
  end.

(** A string without unpaired surrogates. *)
Fixpoint well_formed (s : jsstring) : bool :=
  match s with
  | [] => true
  | c :: rest =>
      if is_trail_surrogate c then false
      else if is_lead_surrogate c then
        match rest with
        | d :: rest' => is_trail_surrogate d && well_formed rest'
        | [] => false
        end
      else well_formed rest
  end.

(** ** The error monad of throwing code *)

#[export] Instance result_ret : MRet result := fun _ a => Ok a.
#[export] Instance result_bind : MBind result := fun _ _ f r =>
  match r with
  | Ok a => f a
  | Throw e => Throw e
  end.

(** ** The image transformer *)

(** The [file] and [external] objects of an image payload. *)
Module FileObject.
Record t : Type := mk { url : nullable jsstring }.
End FileObject.

(** The payload [block.image]. *)
Module Image.
Record t : Type := mk {
  type : nullable jsstring;
  file : nullable FileObject.t;
  external : nullable FileObject.t
}.
End Image.

(** The Notion block handed to the transformer. *)
Module Block.
Record t : Type := mk {
  id : jsstring;
  image : nullable Image.t
}.
End Block.

(** Reading [o.url] where [o] may be [undefined] or [null]: a [TypeError]
    then, the property (itself possibly [undefined]) otherwise. *)
Definition url_of (o : nullable FileObject.t) : result (nullable jsstring) :=
  match o with
  | Has f => Ok (FileObject.url f)
  | _ => Throw TypeError
  end.

(** [image.type === "file"]. *)
Definition is_file (ty : nullable jsstring) : bool :=
  match ty with
  | Has t => bool_decide (t = js "file")
  | _ => false
  end.

(** The custom transformer registered for [image] blocks. *)
Definition imageTransformer (block : Block.t) : result jsstring :=
  match Block.image block with
  | Has image =>
      imageUrl ← (if is_file (Image.type image)
                  then url_of (Image.file image)
                  else url_of (Image.external image));
      let blockId := Block.id block in
      encodedUrl ← encodeURIComponent (to_string imageUrl);
      let proxyUrl :=
        js "https://www.notion.so/image/" ++ encodedUrl ++
        js "?table=block&id=" ++ blockId ++ js "&cache=v2" in
      mret (js "![image](" ++ proxyUrl ++ js ")")
  | _ => Throw TypeError
  end.

(** The proxy reference for an encoded URL and a block identifier. *)
Definition proxy_reference (encoded blockId : jsstring) : jsstring :=
  js "![image](https://www.notion.so/image/" ++ encoded ++
  js "?table=block&id=" ++ blockId ++ js "&cache=v2)".

(** ** Records of the database *)

(** The property values of a page, shaped as the Notion API returns them;
    every link that the source reads with [?.] may be [undefined] or
    [null]. *)
Module RichText.
Record t : Type := mk { plain_text : nullable jsstring }.
End RichText.

Module TitleProperty.
Record t : Type := mk { title : nullable (list RichText.t) }.
End TitleProperty.

Module RichTextProperty.
Record t : Type := mk { rich_text : nullable (list RichText.t) }.
End RichTextProperty.

Module SelectOption.
Record t : Type := mk { name : nullable jsstring }.
End SelectOption.

Module SelectProperty.
Record t : Type := mk { select : nullable SelectOption.t }.
End SelectProperty.

Module MultiSelectProperty.
Record t : Type := mk { multi_select : nullable (list SelectOption.t) }.
End MultiSelectProperty.

Module DateValue.
Record t : Type := mk { start : nullable jsstring }.
End DateValue.

Module DateProperty.
Record t : Type := mk { date : nullable DateValue.t }.
End DateProperty.

Module Properties.
Record t : Type := mk {
  title : nullable TitleProperty.t;
  page_id : nullable RichTextProperty.t;
  description : nullable RichTextProperty.t;
  thumbnail_url : nullable RichTextProperty.t;
  category : nullable SelectProperty.t;
  tags : nullable MultiSelectProperty.t;
  date : nullable DateProperty.t
}.
End Properties.

Module Page.
Record t : Type := mk {
  id : jsstring;
  properties : nullable Properties.t
}.
End Page.

(** ** Per-record property extraction *)

(** [p?.rich_text?.[0]?.plain_text] for a rich-text property [p]. *)
Definition first_plain_text (p : nullable RichTextProperty.t)
  : nullable jsstring :=
  chain (first (chain p RichTextProperty.rich_text)) RichText.plain_text.

(** [page.properties?.title?.title?.[0]?.plain_text]. *)
Definition title_text (page : Page.t) : nullable jsstring :=
  chain
    (first (chain (chain (Page.properties page) Properties.title)
              TitleProperty.title))
    RichText.plain_text.

Definition title (page : Page.t) : jsstring :=
  or_else (title_text page) (js "Untitled").

Definition page_id_text (page : Page.t) : nullable jsstring :=
  first_plain_text (chain (Page.properties page) Properties.page_id).

(** The right operand of [||] is evaluated only when the left is falsy. *)
Definition pageId (page : Page.t) : jsstring :=
  or_else (page_id_text page) (remove_all 45 (Page.id page)).

Definition description_text (page : Page.t) : nullable jsstring :=
  first_plain_text (chain (Page.properties page) Properties.description).

Definition description (page : Page.t) : jsstring :=
  or_else (description_text page) [].

Definition thumbnailUrl (page : Page.t) : nullable jsstring :=
  first_plain_text (chain (Page.properties page) Properties.thumbnail_url).

Definition imageFrontmatter (page : Page.t) : jsstring :=
  if truthy (thumbnailUrl page) then
    js "image:" ++ newline ++
    js "  path: " ++ dquote ++ to_string (thumbnailUrl page) ++ dquote ++
    newline ++
    js "  alt: " ++ dquote ++ js "preview image" ++ dquote ++ newline
  else [].

Definition category_name (page : Page.t) : nullable jsstring :=
  chain
    (chain (chain (Page.properties page) Properties.category)
       SelectProperty.select)
    SelectOption.name.

Definition category (page : Page.t) : jsstring :=
  or_else (category_name page) (js "blog").

(** [page.properties?.tags?.multi_select]. *)
Definition multi_select_of (page : Page.t)
  : nullable (list SelectOption.t) :=
  chain (chain (Page.properties page) Properties.tags)
    MultiSelectProperty.multi_select.

(** [(... || []).map((t) => t.name)]: an array, even an empty one, is
    truthy. *)
Definition tags (page : Page.t) : list (nullable jsstring) :=
  List.map SelectOption.name
    (match multi_select_of page with
     | Has l => l
     | _ => []
     end).

Definition date_start (page : Page.t) : nullable jsstring :=
  chain
    (chain (chain (Page.properties page) Properties.date) DateProperty.date)
    DateValue.start.

(** [... || moment().format("YYYY-MM-DD")], given what the clock answers. *)
Definition date (today : jsstring) (page : Page.t) : jsstring :=
  or_else (date_start page) today.

(** The header template. *)
Definition frontmatter (today : jsstring) (page : Page.t) : jsstring :=
  js "---" ++ newline ++
  js "title: " ++ dquote ++ title page ++ dquote ++ newline ++
  js "date: " ++ date today page ++ newline ++
  js "categories: [" ++ dquote ++ category page ++ dquote ++ js "]" ++
  newline ++
  js "tags: [" ++ dquote ++
  join (dquote ++ js ", " ++ dquote) (tags page) ++ dquote ++ js "]" ++
  newline ++
  js "description: " ++ dquote ++ description page ++ dquote ++ newline ++
  js "permalink: /posts/" ++ pageId page ++ newline ++
  js "math: true" ++ newline ++
  imageFrontmatter page ++ js "---" ++ newline ++
  newline.

Definition filename (today : jsstring) (page : Page.t) : jsstring :=
  date today page ++ js "-" ++ pageId page ++ js ".md".

(** ** The run *)

(** The object returned by [toMarkdownString]; only its [parent] entry is
    read. *)
Module MdStringObject.
Record t : Type := mk { parent : nullable jsstring }.
End MdStringObject.

(** The calls that leave the process or reach the console, in order. A
    write and a directory creation are recorded when they succeed, a remote
    call when it is issued. *)
Inductive event : Type :=
| DatabasesQuery (database_id : jsstring)
| PageToMarkdown (page_id : jsstring)
| MkdirSync (path : jsstring)
| WriteFileSync (path data : jsstring)
| ConsoleLog (message : jsstring)
| ConsoleError (label : jsstring) (err : error).

Definition is_network (e : event) : bool :=
  match e with
  | DatabasesQuery _ | PageToMarkdown _ => true
  | _ => false
  end.

Definition is_write (e : event) : bool :=
  match e with
  | WriteFileSync _ _ => true
  | _ => false
  end.

Definition is_file_system (e : event) : bool :=
  match e with
  | WriteFileSync _ _ | MkdirSync _ => true
  | _ => false
  end.

(** The file system as far as the run changes it: the directories that
    exist and the content of each file. [writeFileSync] replaces the
    content of an existing file. *)
Record filesystem : Type := mkFs {
  dirs : gset jsstring;
  files : gmap jsstring jsstring
}.

Definition apply_event (fs : filesystem) (e : event) : filesystem :=
  match e with
  | MkdirSync p => mkFs ({[p]} ∪ dirs fs) (files fs)
  | WriteFileSync p d => mkFs (dirs fs) (<[p := d]> (files fs))
  | _ => fs
  end.

Definition apply_events (fs : filesystem) (tr : list event) : filesystem :=
  List.fold_left apply_event tr fs.

(** A computation that appends to the trace and may throw. *)
Definition IO (A : Type) : Type := list event -> list event * result A.

#[export] Instance IO_ret : MRet IO := fun _ a tr => (tr, Ok a).
#[export] Instance IO_bind : MBind IO := fun _ _ f m tr =>
  match m tr with
  | (tr', Ok a) => f a tr'
  | (tr', Throw e) => (tr', Throw e)
  end.

Definition throw {A : Type} (e : error) : IO A := fun tr => (tr, Throw e).
Definition emit (e : event) : IO unit := fun tr => (tr ++ [e], Ok tt).
Definition history : IO (list event) := fun tr => (tr, Ok tr).
Definition lift {A : Type} (r : result A) : IO A := fun tr => (tr, r).

(** [for (const x of xs) body]. *)
Fixpoint for_of {A : Type} (xs : list A) (body : A -> IO unit) : IO unit :=
  match xs with
  | [] => mret tt
  | x :: rest => body x ≫= fun _ => for_of rest body
  end.

(** The decimal text of an array length. *)
Definition decimal (n : nat) : jsstring :=
  js (DecimalString.NilEmpty.string_of_uint (Nat.to_uint n)).

Section Exporter.

(** [process.env]. *)
Variable process_env : jsstring -> nullable jsstring.
(** [notion.databases.query] with the fixed filter (published) and sort
    (ascending date), by database identifier; it gives
    [response.results]. *)
Variable databases_query : jsstring -> result (list Page.t).
(** [n2m.pageToMarkdown], which runs the registered image transformer. *)
Variable pageToMarkdown :
  (Block.t -> result jsstring) -> jsstring -> result (list MdBlock).
(** [n2m.toMarkdownString]. *)
Variable toMarkdownString : list MdBlock -> MdStringObject.t.
(** [moment().format("YYYY-MM-DD")], which may change while the run
    proceeds: the answer after a given trace. *)
Variable moment_format : list event -> jsstring.
(** [path.join]. *)
Variable path_join : jsstring -> jsstring -> jsstring.
(** The error, if any, of [mkdirSync(path, { recursive: true })] and of
    [writeFileSync(path, data)] after a given trace. *)
Variable mkdirSync_error : list event -> jsstring -> option error.
Variable writeFileSync_error :
  list event -> jsstring -> jsstring -> option error.

Definition mkdirSync (p : jsstring) : IO unit :=
  tr ← history;
  match mkdirSync_error tr p with
  | Some e => throw e
  | None => emit (MkdirSync p)
  end.

Definition writeFileSync (p d : jsstring) : IO unit :=
  tr ← history;
  match writeFileSync_error tr p d with
  | Some e => throw e
  | None => emit (WriteFileSync p d)
  end.

(** The body of the loop over [response.results]. *)
Definition processPage (folder : jsstring) (page : Page.t) : IO unit :=
  tr ← history;
  let today := moment_format tr in
  emit (PageToMarkdown (Page.id page));;
  mdBlocks ← lift (pageToMarkdown imageTransformer (Page.id page));
  let mdString := toMarkdownString (shiftHeadings mdBlocks) in
  let filepath := path_join folder (filename today page) in
  writeFileSync filepath
    (frontmatter today page ++ to_string (MdStringObject.parent mdString));;
  emit (ConsoleLog (js "Generated: " ++ filename today page)).

(** The body of the [async] function. *)
Definition main : IO unit :=
  let databaseId := process_env (js "DATABASE_ID") in
  if negb (truthy databaseId) then
    throw (Error (js "Missing required environment variable: DATABASE_ID"))
  else if negb (truthy (process_env (js "NOTION_TOKEN"))) then
    throw (Error (js "Missing required environment variable: NOTION_TOKEN"))
  else
    emit (DatabasesQuery (to_string databaseId));;
    results ← lift (databases_query (to_string databaseId));
    emit (ConsoleLog (js "Converting " ++ decimal (List.length results) ++
                      js " post(s)..."));;
    let folder := js "_posts" in
    mkdirSync folder;;
    for_of results (processPage folder).

(** The whole script: [main] with its [catch] handler; the second
    component is the exit code. *)
Definition run : list event * Z :=
  match main [] with
  | (tr, Ok _) => (tr, 0)
  | (tr, Throw err) => (tr ++ [ConsoleError (js "Export failed:") err], 1)
  end.

End Exporter.

(** ** Sample inputs *)

Definition sample_heading : MdBlock :=
  mkMdBlock (js "heading_1") (js "b1") (js "# Intro") [].

Definition sample_tree : list MdBlock :=
  [ mkMdBlock (js "paragraph") (js "p0") (js "hello") [];
    mkMdBlock (js "toggle") (js "t0") (js "# not a heading")
      [ mkMdBlock (js "heading_2") (js "h2") (js "## Inner") [];
        mkMdBlock (js "heading_3") (js "h3") (js "#### Odd") [];
        mkMdBlock (js "column") (js "c0") []
          [ sample_heading ] ] ].

(** The two payload shapes: hosted by Notion ([type] is ["file"] and
    [file.url] is there) and hosted elsewhere ([type] is ["external"] and
    [external.url] is there). *)
Definition hosted_shape (image : Image.t) (u : jsstring) : Prop :=
  Image.type image = Has (js "file") /\
  exists f, Image.file image = Has f /\ FileObject.url f = Has u.

Definition external_shape (image : Image.t) (u : jsstring) : Prop :=
  Image.type image = Has (js "external") /\
  exists f, Image.external image = Has f /\ FileObject.url f = Has u.

(** [undefined] or [null]. *)
Definition nullish {A : Type} (o : nullable A) : Prop :=
  o = Undefined \/ o = Null.

(** The object that the transformer reads the URL from. *)
Definition selected_source (image : Image.t) : nullable FileObject.t :=
  if is_file (Image.type image) then Image.file image
  else Image.external image.

Definition sample_hosted_block : Block.t :=
  Block.mk (js "1a2b-3c")
    (Has (Image.mk (Has (js "file"))
            (Has (FileObject.mk (Has (js "https://s3.aws.com/a b.png?X=1"))))
            Undefined)).

Definition sample_external_block : Block.t :=
  Block.mk (js "ffee")
    (Has (Image.mk (Has (js "external")) Undefined
            (Has (FileObject.mk (Has (js "https://example.com/x.png")))))).

(** A payload tagged ["file"] whose [file] object has no [url], and that
    has no [external] object. *)
Definition sample_urlless_block : Block.t :=
  Block.mk (js "b1")
    (Has (Image.mk (Has (js "file")) (Has (FileObject.mk Undefined))
            Undefined)).

(** A payload with a type tag and neither object. *)
Definition sample_sourceless_block : Block.t :=
  Block.mk (js "b2") (Has (Image.mk (Has (js "file")) Undefined Undefined)).

(** The events of a run up to its loop, for a database identifier and a
    number of records. *)
Definition prologue (database_id : jsstring) (n : nat) : list event :=
  [ DatabasesQuery database_id;
    ConsoleLog (js "Converting " ++ decimal n ++ js " post(s)...");
    MkdirSync (js "_posts") ].

(** A variable of the environment is missing for the script when its value
    is falsy: unset, or set to the empty string. *)
Definition missing (env : jsstring -> nullable jsstring) (name : jsstring)
  : Prop :=
  truthy (env name) = false.

(** The named property of a page is absent: the property set or its entry
    is [undefined] or [null]. *)
Definition absent {A : Type} (page : Page.t)
    (field : Properties.t -> nullable A) : Prop :=
  nullish (chain (Page.properties page) field).

(** The named property of a page is there. *)
Definition present {A : Type} (page : Page.t)
    (field : Properties.t -> nullable A) (value : A) : Prop :=
  exists props, Page.properties page = Has props /\ field props = Has value.

(** A rich-text list that is empty, or whose first run has the empty
    text. *)
Definition empty_text (items : nullable (list RichText.t)) : Prop :=
  items = Has [] \/
  exists r rest, items = Has (r :: rest) /\ RichText.plain_text r = Has [].

(** Sample records. *)
Definition text_property (s : jsstring) : nullable RichTextProperty.t :=
  Has (RichTextProperty.mk (Has [RichText.mk (Has s)])).

Definition sample_page_bare : Page.t :=
  Page.mk (js "12ab-34cd-56ef") Undefined.

Definition sample_page_empty : Page.t :=
  Page.mk (js "aa-bb")
    (Has (Properties.mk
            (Has (TitleProperty.mk (Has [])))
            (text_property [])
            (Has (RichTextProperty.mk (Has [])))
            (text_property [])
            (Has (SelectProperty.mk Null))
            (Has (MultiSelectProperty.mk (Has [])))
            (Has (DateProperty.mk (Has (DateValue.mk (Has []))))))).

Definition sample_page_full : Page.t :=
  Page.mk (js "99-77")
    (Has (Properties.mk
            (Has (TitleProperty.mk (Has [RichText.mk (Has (js "Hello"))])))
            (text_property (js "hello-post"))
            (text_property (js "A post"))
            (text_property (js "https://img/x.png"))
            (Has (SelectProperty.mk (Has (SelectOption.mk (Has (js "dev"))))))
            (Has (MultiSelectProperty.mk
                    (Has [SelectOption.mk (Has (js "a"));
                          SelectOption.mk (Has (js "b"))])))
            (Has (DateProperty.mk
                    (Has (DateValue.mk (Has (js "2024-01-02")))))))).

(** A sample world: both variables set, two published records, a converter
    that runs the transformer on a payload without source for the record
    [sample_page_bare] and answers [sample_tree] otherwise, a renderer that
    joins the texts of the root blocks, a fixed clock and a file system that
    never fails. *)
Definition sample_env (name : jsstring) : nullable jsstring :=
  if bool_decide (name = js "DATABASE_ID") then Has (js "db1")
  else if bool_decide (name = js "NOTION_TOKEN") then Has (js "secret")
  else Undefined.

Definition sample_env_no_token (name : jsstring) : nullable jsstring :=
  if bool_decide (name = js "DATABASE_ID") then Has (js "db1")
  else Undefined.

Definition sample_query (results : list Page.t) (database_id : jsstring)
  : result (list Page.t) :=
  Ok results.

Definition sample_pageToMarkdown
    (transformer : Block.t -> result jsstring) (page_id : jsstring)
  : result (list MdBlock) :=
  if bool_decide (page_id = Page.id sample_page_bare) then
    text ← transformer sample_sourceless_block;
    mret [mkMdBlock (js "image") (js "b2") text []]
  else Ok sample_tree.

Definition sample_toMarkdownString (blocks : list MdBlock)
  : MdStringObject.t :=
  MdStringObject.mk
    (Has (join newline (List.map (fun b => Has (parent b)) blocks))).

Definition sample_moment (tr : list event) : jsstring := js "2024-05-06".

Definition sample_join (a b : jsstring) : jsstring := a ++ js "/" ++ b.

Definition sample_mkdir_ok (tr : list event) (p : jsstring) : option error :=
  None.

Definition sample_write_ok (tr : list event) (p d : jsstring)
  : option error :=
  None.

Definition sample_run (env : jsstring -> nullable jsstring)
    (results : list Page.t) : list event * Z :=
  run env (sample_query results) sample_pageToMarkdown
    sample_toMarkdownString sample_moment sample_join sample_mkdir_ok
    sample_write_ok.

Definition empty_fs : filesystem := mkFs ∅ ∅.

(** ** Vocabulary of the further properties *)

(** A text without its leading [#]. *)
Fixpoint drop_hashes (s : jsstring) : jsstring :=
  match s with
  | 35 :: s' => drop_hashes s'
  | _ => s
  end.

(** A UTF-16 code unit. *)
Definition code_unit (c : Z) : Prop := 0 <= c < 65536.

(** A code unit that [encodeURIComponent] may write: an unescaped one or
    the percent sign. *)
Definition uri_safe (c : Z) : Prop := uriUnescaped c = true \/ c = 37.

(** A text between double quotes. *)
Definition quoted (s : jsstring) : jsstring := dquote ++ s ++ dquote.

(** The first run of a rich-text list carries the non-empty text [s]. *)
Definition first_text (items : nullable (list RichText.t)) (s : jsstring)
  : Prop :=
  exists r rest,
    items = Has (r :: rest) /\ RichText.plain_text r = Has s /\ s <> [].

(** The lines of the header between the opening marker and the math
    flag. *)
Definition header_fields (today : jsstring) (page : Page.t) : jsstring :=
  js "title: " ++ dquote ++ title page ++ dquote ++ newline ++
  js "date: " ++ date today page ++ newline ++
  js "categories: [" ++ dquote ++ category page ++ dquote ++ js "]" ++
  newline ++
  js "tags: [" ++ dquote ++
  join (dquote ++ js ", " ++ dquote) (tags page) ++ dquote ++ js "]" ++
  newline ++
  js "description: " ++ dquote ++ description page ++ dquote ++ newline ++
  js "permalink: /posts/" ++ pageId page ++ newline.

(** The identifiers of the records whose conversion a trace asked for, in
    order. *)
Fixpoint fetched_ids (tr : list event) : list jsstring :=
  match tr with
  | [] => []
  | PageToMarkdown i :: rest => i :: fetched_ids rest
  | _ :: rest => fetched_ids rest
  end.

Definition is_console_error (e : event) : bool :=
  match e with
  | ConsoleError _ _ => true
  | _ => false
  end.

Definition is_query (e : event) : bool :=
  match e with
  | DatabasesQuery _ => true
  | _ => false
  end.

Definition is_mkdir (e : event) : bool :=
  match e with
  | MkdirSync _ => true
  | _ => false
  end.

(** The three events of a record that is processed to its end, given the
    trace before it, the converted blocks and the world. *)
Definition record_events
    (toMarkdownString : list MdBlock -> MdStringObject.t)
    (moment_format : list event -> jsstring)
    (path_join : jsstring -> jsstring -> jsstring)
    (folder : jsstring) (page : Page.t) (tr : list event)
    (blocks : list MdBlock) : list event :=
  [ PageToMarkdown (Page.id page);
    WriteFileSync (path_join folder (filename (moment_format tr) page))
      (frontmatter (moment_format tr) page ++
       to_string (MdStringObject.parent
                    (toMarkdownString (shiftHeadings blocks))));
    ConsoleLog (js "Generated: " ++ filename (moment_format tr) page) ].

(** A payload without type tag that carries both objects. *)
Definition sample_untagged_block : Block.t :=
  Block.mk (js "b4")
    (Has (Image.mk Undefined
            (Has (FileObject.mk (Has (js "https://ignored"))))
            (Has (FileObject.mk (Has (js "https://e.x/a")))))).

(** A sample world whose converter answers [sample_tree] for every record
    and whose write fails for one path. *)
Definition sample_convert_all
    (transformer : Block.t -> result jsstring) (page_id : jsstring)
  : result (list MdBlock) :=
  Ok sample_tree.

Definition sample_write_fails_on (bad : jsstring)
    (tr : list event) (p d : jsstring) : option error :=
  if bool_decide (p = bad) then Some (External (js "EACCES")) else None.

Definition sample_query_fails (database_id : jsstring)
  : result (list Page.t) :=
  Throw (External (js "unauthorized")).

Definition sample_mkdir_fails (tr : list event) (p : jsstring)
  : option error :=
  Some (External (js "EEXIST")).

(** ** Fields without a value *)

(** A rich-text list that gives no text: it is [undefined] or [null], it
    is empty, or its first run has no [plain_text]. *)
Definition no_text (items : nullable (list RichText.t)) : Prop :=
  nullish items \/ items = Has [] \/
  exists r rest, items = Has (r :: rest) /\ nullish (RichText.plain_text r).

(** A record lacks a field when some link of the chain that the source
    follows to its value is [undefined] or [null] (the property set, the
    property, or an entry inside it, as in [select: null] or
    [date: null]), or when the array at its end has no element. *)
Definition lacks_title (page : Page.t) : Prop :=
  absent page Properties.title \/
  exists p, present page Properties.title p /\
            no_text (TitleProperty.title p).

Definition lacks_text (page : Page.t)
    (field : Properties.t -> nullable RichTextProperty.t) : Prop :=
  absent page field \/
  exists p, present page field p /\ no_text (RichTextProperty.rich_text p).

Definition lacks_category (page : Page.t) : Prop :=
  absent page Properties.category \/
  exists p, present page Properties.category p /\
            (nullish (SelectProperty.select p) \/
             exists o, SelectProperty.select p = Has o /\
                       nullish (SelectOption.name o)).

Definition lacks_tags (page : Page.t) : Prop :=
  absent page Properties.tags \/
  exists p, present page Properties.tags p /\
            (nullish (MultiSelectProperty.multi_select p) \/
             MultiSelectProperty.multi_select p = Has []).

Definition lacks_date (page : Page.t) : Prop :=
  absent page Properties.date \/
  exists p, present page Properties.date p /\
            (nullish (DateProperty.date p) \/
             exists d, DateProperty.date p = Has d /\
                       nullish (DateValue.start d)).

(** The text that the template puts between the brackets' quotes of the
    tags line. *)
Definition tags_text (page : Page.t) : jsstring :=
  join (dquote ++ js ", " ++ dquote) (tags page).

(** The header template as a function of the seven texts it
    interpolates. *)
Definition header_with
    (title_ date_ category_ tags_ description_ slug_ image_ : jsstring)
  : jsstring :=
  js "---" ++ newline ++
  js "title: " ++ dquote ++ title_ ++ dquote ++ newline ++
  js "date: " ++ date_ ++ newline ++
  js "categories: [" ++ dquote ++ category_ ++ dquote ++ js "]" ++
  newline ++
  js "tags: [" ++ dquote ++ tags_ ++ dquote ++ js "]" ++ newline ++
  js "description: " ++ dquote ++ description_ ++ dquote ++ newline ++
  js "permalink: /posts/" ++ slug_ ++ newline ++
  js "math: true" ++ newline ++
  image_ ++ js "---" ++ newline ++
  newline.

(** A record none of whose fields is set, as the Notion API returns it:
    empty rich-text lists, [select: null], an empty selection and
    [date: null]. *)
Definition sample_page_unset : Page.t :=
  Page.mk (js "0f-1e-2d")
    (Has (Properties.mk
            (Has (TitleProperty.mk (Has [])))
            (Has (RichTextProperty.mk (Has [])))
            (Has (RichTextProperty.mk (Has [])))
            (Has (RichTextProperty.mk (Has [])))
            (Has (SelectProperty.mk Null))
            (Has (MultiSelectProperty.mk (Has [])))
            (Has (DateProperty.mk Null)))).

(** A renderer that, like notion-to-md on a page without blocks, returns
    an object without [parent] entry for the empty list, and a converter
    that answers the empty list. *)
Definition sample_render (blocks : list MdBlock) : MdStringObject.t :=
  match blocks with
  | [] => MdStringObject.mk Undefined
  | _ :: _ => sample_toMarkdownString blocks
  end.

Definition sample_convert_empty
    (transformer : Block.t -> result jsstring) (page_id : jsstring)
  : result (list MdBlock) :=
  Ok [].

(** * Properties *)

(** ** Strings *)

Lemma strip_prefix_spec (p s rest : jsstring) :
  strip_prefix p s = Some rest <-> s = p ++ rest.
Proof.
  revert s. induction p as [|a p IH]; intros s; simpl.
  - split; congruence.
  - destruct s as [|b s]; [split; discriminate|].
    destruct (Z.eqb_spec a b) as [->|Hne].
    + rewrite IH. split; congruence.
    + split; [discriminate | congruence].
Qed.

Lemma strip_prefix_None (p s : jsstring) :
  strip_prefix p s = None <-> ~ starts_with p s.
Proof.
  split.
  - intros Hnone [rest Hrest]. apply strip_prefix_spec in Hrest. congruence.
  - intros Hno. destruct (strip_prefix p s) as [rest|] eqn:E; [|reflexivity].
    exfalso. apply Hno. exists rest. now apply strip_prefix_spec.
Qed.

Lemma replace_at_start_match (pat rep s : jsstring) :
  starts_with pat s ->
  exists rest, s = pat ++ rest /\ replace_at_start pat rep s = rep ++ rest.
Proof.
  intros [rest ->]. exists rest. split; [reflexivity|].
  unfold replace_at_start.
  now rewrite (proj2 (strip_prefix_spec pat (pat ++ rest) rest) eq_refl).
Qed.

Lemma replace_at_start_no_match (pat rep s : jsstring) :
  ~ starts_with pat s -> replace_at_start pat rep s = s.
Proof.
  intros Hno. unfold replace_at_start.
  now rewrite (proj2 (strip_prefix_None pat s) Hno).
Qed.

(** ** The heading shifter *)

(** Induction on a block with the hypothesis for every child. *)
Lemma MdBlock_forall_ind (P : MdBlock -> Prop) :
  (forall ty id p cs, Forall P cs -> P (mkMdBlock ty id p cs)) ->
  forall b, P b.
Proof.
  intros step. fix IH 1. intros [ty id p cs]. apply step.
  induction cs as [|c cs IHcs]; constructor; [apply IH | exact IHcs].
Qed.

(** The three rewriting rules, one per heading level. *)
Lemma shiftParent_heading_1 (p : jsstring) :
  shiftParent (js "heading_1") p = replace_at_start (js "# ") (js "## ") p.
Proof. reflexivity. Qed.

Lemma shiftParent_heading_2 (p : jsstring) :
  shiftParent (js "heading_2") p = replace_at_start (js "## ") (js "### ") p.
Proof. reflexivity. Qed.

Lemma shiftParent_heading_3 (p : jsstring) :
  shiftParent (js "heading_3") p =
  replace_at_start (js "### ") (js "#### ") p.
Proof. reflexivity. Qed.

Lemma shiftParent_other (ty p : jsstring) :
  ~ is_heading ty -> shiftParent ty p = p.
Proof.
  intros Hno. unfold shiftParent, is_heading in *.
  repeat case_bool_decide; tauto.
Qed.

(** A matching heading gains one [#]. *)
Lemma shiftParent_matching (b : MdBlock) :
  matching_heading b ->
  shiftParent (type b) (parent b) = js "#" ++ parent b.
Proof.
  intros [[Hty Hpre] | [[Hty Hpre] | [Hty Hpre]]]; rewrite Hty.
  - rewrite shiftParent_heading_1.
    destruct (replace_at_start_match _ (js "## ") _ Hpre) as (r & -> & ->).
    reflexivity.
  - rewrite shiftParent_heading_2.
    destruct (replace_at_start_match _ (js "### ") _ Hpre) as (r & -> & ->).
    reflexivity.
  - rewrite shiftParent_heading_3.
    destruct (replace_at_start_match _ (js "#### ") _ Hpre) as (r & -> & ->).
    reflexivity.
Qed.

(** A heading whose text lacks the prefix of its level keeps its text. *)
Lemma shiftParent_not_matching (b : MdBlock) :
  ~ matching_heading b -> shiftParent (type b) (parent b) = parent b.
Proof.
  intros Hno. unfold shiftParent.
  repeat case_bool_decide; try reflexivity;
    apply replace_at_start_no_match; intros Hpre; apply Hno;
    unfold matching_heading; tauto.
Qed.

(** The rewritten text never matches the rule that produced it. *)
Lemma shiftParent_idempotent (ty p : jsstring) :
  shiftParent ty (shiftParent ty p) = shiftParent ty p.
Proof.
  unfold shiftParent. repeat case_bool_decide; try reflexivity;
    unfold replace_at_start at 2;
    destruct (strip_prefix _ p) as [rest|] eqn:E;
    try reflexivity;
    unfold replace_at_start; try (rewrite E; reflexivity).
Qed.

Lemma shiftBlock_fields (b : MdBlock) :
  type (shiftBlock b) = type b /\
  blockId (shiftBlock b) = blockId b /\
  parent (shiftBlock b) = shiftParent (type b) (parent b) /\
  children (shiftBlock b) = shiftHeadings (children b).
Proof. destruct b as [ty id p [|c cs]]; repeat split. Qed.

Lemma shiftBlock_unfold (b : MdBlock) :
  shiftBlock b =
  mkMdBlock (type b) (blockId b) (shiftParent (type b) (parent b))
    (shiftHeadings (children b)).
Proof. destruct b as [ty id p [|c cs]]; reflexivity. Qed.

Lemma block_at_shiftHeadings (blocks : list MdBlock) (path : list nat) :
  block_at (shiftHeadings blocks) path = shiftBlock <$> block_at blocks path.
Proof.
  revert blocks. induction path as [|i rest IH]; intros blocks; simpl.
  - reflexivity.
  - unfold shiftHeadings at 1.
    change (List.map shiftBlock blocks) with (shiftBlock <$> blocks).
    rewrite list_lookup_fmap.
    destruct (blocks !! i) as [b|]; simpl; [|reflexivity].
    destruct rest as [|j rest]; [reflexivity|].
    destruct (shiftBlock_fields b) as (_ & _ & _ & ->). apply IH.
Qed.

Lemma shiftBlock_idempotent (b : MdBlock) :
  shiftBlock (shiftBlock b) = shiftBlock b.
Proof.
  induction b as [ty id p cs IH] using MdBlock_forall_ind.
  rewrite (shiftBlock_unfold (shiftBlock _)).
  destruct (shiftBlock_fields (mkMdBlock ty id p cs)) as (-> & -> & -> & ->).
  rewrite (shiftBlock_unfold (mkMdBlock ty id p cs)).
  cbn [type blockId parent children].
  rewrite shiftParent_idempotent.
  f_equal. unfold shiftHeadings. rewrite List.map_map.
  apply List.map_ext_in. intros c Hc.
  rewrite Forall_forall in IH. apply IH. now apply list_elem_of_In.
Qed.

Lemma skeleton_shiftBlock (b : MdBlock) : skeleton (shiftBlock b) = skeleton b.
Proof.
  induction b as [ty id p cs IH] using MdBlock_forall_ind.
  rewrite shiftBlock_unfold. cbn [type blockId parent children skeleton].
  f_equal.
  - unfold shiftParent. repeat case_bool_decide; reflexivity.
  - unfold shiftHeadings. rewrite List.map_map.
    apply List.map_ext_in. intros c Hc.
    rewrite Forall_forall in IH. apply IH. now apply list_elem_of_In.
Qed.

(** C1, as stated, fails: on a tree that holds a level-1 heading whose text
    starts with its prefix, a second application of the shifter gives the
    same tree as the first. *)
Lemma shiftHeadings_twice_same_on_match :
  (exists path b,
      block_at [sample_heading] path = Some b /\ matching_heading b) /\
  shiftHeadings (shiftHeadings [sample_heading]) =
  shiftHeadings [sample_heading].
Proof.
  split; [|reflexivity].
  exists [0%nat], sample_heading. split; [reflexivity|].
  left. split; [reflexivity|]. exists (js "Intro"). reflexivity.
Qed.

(** C1 (amended): the shifter is idempotent. For every block tree, applying
    it twice gives the same tree as applying it once, because a rewritten
    heading text no longer starts with the prefix of its level. *)
Theorem shiftHeadings_idempotent (blocks : list MdBlock) :
  shiftHeadings (shiftHeadings blocks) = shiftHeadings blocks.
Proof.
  unfold shiftHeadings. rewrite List.map_map.
  apply List.map_ext. apply shiftBlock_idempotent.
Qed.

Lemma leading_hashes_cons_hash (s : jsstring) :
  leading_hashes (js "#" ++ s) = S (leading_hashes s).
Proof. reflexivity. Qed.

(** C2: every heading block of the tree (type heading_1, heading_2 or
    heading_3, at any position) keeps its type; if its text starts with the
    prefix of its level, the shifted text is the old text with exactly one
    more leading [#]; otherwise the text is unchanged, and nothing is thrown
    (the shifter is a total function). *)
Theorem shiftHeadings_heading_text
    (blocks : list MdBlock) (path : list nat) (b : MdBlock) :
  block_at blocks path = Some b ->
  is_heading (type b) ->
  exists b',
    block_at (shiftHeadings blocks) path = Some b' /\
    type b' = type b /\
    (matching_heading b ->
       parent b' = js "#" ++ parent b /\
       leading_hashes (parent b') = S (leading_hashes (parent b))) /\
    (~ matching_heading b -> parent b' = parent b).
Proof.
  intros Hat _. exists (shiftBlock b).
  rewrite block_at_shiftHeadings, Hat.
  destruct (shiftBlock_fields b) as (Hty & _ & Hp & _).
  split; [reflexivity|]. split; [exact Hty|]. split.
  - intros Hmatch. rewrite Hp, (shiftParent_matching b Hmatch).
    split; [reflexivity | apply leading_hashes_cons_hash].
  - intros Hno. rewrite Hp. now apply shiftParent_not_matching.
Qed.

Lemma shiftHeadings_heading_text_witness :
  exists b',
    block_at (shiftHeadings sample_tree) [1; 0]%nat = Some b' /\
    type b' = js "heading_2" /\
    (matching_heading
       (mkMdBlock (js "heading_2") (js "h2") (js "## Inner") []) ->
     parent b' = js "#" ++ js "## Inner" /\
     leading_hashes (parent b') = S (leading_hashes (js "## Inner"))) /\
    (~ matching_heading
         (mkMdBlock (js "heading_2") (js "h2") (js "## Inner") []) ->
     parent b' = js "## Inner").
Proof.
  apply (shiftHeadings_heading_text sample_tree [1; 0]%nat
           (mkMdBlock (js "heading_2") (js "h2") (js "## Inner") [])).
  - reflexivity.
  - right. left. reflexivity.
Defined.

(** C3: the shifter recurses into the children of every block, whatever
    the type of the block. For every tree and every path into it, with no
    condition on the blocks above, the block found there after shifting is
    the block that shifting produces from the original block taken alone at
    top level; in particular a heading whose text starts with the prefix of
    its level is demoted at any depth: its text gains one leading [#]. *)
Theorem shiftHeadings_reaches_nested
    (blocks : list MdBlock) (path : list nat) (b : MdBlock) :
  block_at blocks path = Some b ->
  exists b',
    block_at (shiftHeadings blocks) path = Some b' /\
    head (shiftHeadings [b]) = Some b' /\
    type b' = type b /\
    (matching_heading b -> parent b' = js "#" ++ parent b).
Proof.
  intros Hat. exists (shiftBlock b).
  rewrite block_at_shiftHeadings, Hat.
  destruct (shiftBlock_fields b) as (Hty & _ & Hp & _).
  split; [reflexivity|]. split; [reflexivity|]. split; [exact Hty|].
  intros Hmatch. rewrite Hp. now apply shiftParent_matching.
Qed.

Lemma shiftHeadings_reaches_nested_witness :
  exists b',
    block_at (shiftHeadings sample_tree) [1; 2; 0]%nat = Some b' /\
    head (shiftHeadings [sample_heading]) = Some b' /\
    type b' = js "heading_1" /\
    parent b' = js "## Intro".
Proof.
  destruct (shiftHeadings_reaches_nested sample_tree [1; 2; 0]%nat
              sample_heading eq_refl)
    as (b' & Hat & Htop & Hty & Hdemoted).
  exists b'. split; [exact Hat|]. split; [exact Htop|]. split; [exact Hty|].
  apply Hdemoted. left. split; [reflexivity|].
  exists (js "Intro"). reflexivity.
Defined.

(** C10: the shifter changes nothing but the text of heading blocks. The
    tree with every heading text blanked is the same before and after; the
    root list keeps its length; the same paths lead to a block before and
    after, and the block at a path keeps its type, its identifier and its
    number of children, and keeps its text when it is not a heading. *)
Theorem shiftHeadings_frame (blocks : list MdBlock) :
  List.map skeleton (shiftHeadings blocks) = List.map skeleton blocks /\
  List.length (shiftHeadings blocks) = List.length blocks /\
  forall path : list nat,
    match block_at blocks path, block_at (shiftHeadings blocks) path with
    | Some b, Some b' =>
        type b' = type b /\ blockId b' = blockId b /\
        List.length (children b') = List.length (children b) /\
        (~ is_heading (type b) -> parent b' = parent b)
    | None, None => True
    | _, _ => False
    end.
Proof.
  split; [|split].
  - unfold shiftHeadings. rewrite List.map_map.
    apply List.map_ext. apply skeleton_shiftBlock.
  - unfold shiftHeadings. apply List.length_map.
  - intros path. rewrite block_at_shiftHeadings.
    destruct (block_at blocks path) as [b|]; simpl; [|exact I].
    destruct (shiftBlock_fields b) as (Hty & Hid & Hp & Hcs).
    repeat split; try assumption.
    + rewrite Hcs. unfold shiftHeadings. apply List.length_map.
    + intros Hno. rewrite Hp. now apply shiftParent_other.
Qed.

(** ** [encodeURIComponent] *)

Example encode_url :
  encodeURIComponent (js "https://a.b/c d?x=1&y=(2)") =
  Ok (js "https%3A%2F%2Fa.b%2Fc%20d%3Fx%3D1%26y%3D(2)").
Proof. reflexivity. Qed.

(** U+00E9, U+20AC and the pair for U+1F600. *)
Example encode_non_ascii :
  encodeURIComponent [233; 8364; 55357; 56832] =
  Ok (js "%C3%A9%E2%82%AC%F0%9F%98%80").
Proof. reflexivity. Qed.

Example encode_lone_surrogate :
  encodeURIComponent [97; 55357; 98] = Throw URIError.
Proof. reflexivity. Qed.

Lemma uriUnescaped_not_surrogate (c : Z) :
  uriUnescaped c = true ->
  is_lead_surrogate c = false /\ is_trail_surrogate c = false.
Proof.
  unfold uriUnescaped, is_lead_surrogate, is_trail_surrogate. simpl.
  rewrite !orb_true_iff, !andb_true_iff, !andb_false_iff, !Z.leb_le,
    !Z.eqb_eq, !Z.leb_gt.
  lia.
Qed.

Lemma encodeURIComponent_total_bounded (n : nat) (s : jsstring) :
  (List.length s <= n)%nat -> well_formed s = true ->
  exists E, encodeURIComponent s = Ok E.
Proof.
  revert s. induction n as [|n IH]; intros s Hlen Hwf.
  - destruct s; [exists []; reflexivity | simpl in Hlen; lia].
  - destruct s as [|c rest]; [exists []; reflexivity|].
    simpl in Hlen. simpl in Hwf. simpl.
    destruct (uriUnescaped c) eqn:Hu.
    + destruct (uriUnescaped_not_surrogate c Hu) as [Hl Ht].
      rewrite Hl, Ht in Hwf.
      destruct (IH rest) as [E HE]; [lia|assumption|]. rewrite HE. eauto.
    + destruct (is_trail_surrogate c); [discriminate|].
      destruct (is_lead_surrogate c).
      * destruct rest as [|d rest']; [discriminate|].
        apply andb_prop in Hwf as [Hd Hwf]. rewrite Hd.
        destruct (IH rest') as [E HE]; [simpl in Hlen; lia|assumption|].
        rewrite HE. eauto.
      * destruct (IH rest) as [E HE]; [lia|assumption|]. rewrite HE. eauto.
Qed.

(** A string without unpaired surrogates always has an encoding. *)
Lemma encodeURIComponent_total (s : jsstring) :
  well_formed s = true -> exists E, encodeURIComponent s = Ok E.
Proof. apply (encodeURIComponent_total_bounded (List.length s)). lia. Qed.

(** ** The image transformer *)

Lemma imageTransformer_of_url (block : Block.t) (image : Image.t)
    (f : FileObject.t) :
  Block.image block = Has image ->
  selected_source image = Has f ->
  imageTransformer block =
  match encodeURIComponent (to_string (FileObject.url f)) with
  | Ok E => Ok (proxy_reference E (Block.id block))
  | Throw e => Throw e
  end.
Proof.
  intros Himg Hsel. unfold imageTransformer, selected_source in *.
  rewrite Himg.
  destruct (is_file (Image.type image)); rewrite Hsel;
    cbn [url_of mbind result_bind mret result_ret];
    (destruct (encodeURIComponent _) as [E|e]; [|reflexivity]);
    cbn [mbind result_bind mret result_ret];
    unfold proxy_reference; rewrite <- !app_assoc; reflexivity.
Qed.

(** C4: for an image block of the hosted shape (type ["file"] with a URL),
    and likewise for one of the external shape, the transformer returns
    exactly the proxy reference built from [E], the percent-encoding of the
    URL, and from the identifier of the block. *)
Theorem imageTransformer_proxy_reference
    (block : Block.t) (image : Image.t) (u E : jsstring) :
  Block.image block = Has image ->
  hosted_shape image u \/ external_shape image u ->
  encodeURIComponent u = Ok E ->
  imageTransformer block =
  Ok (js "![image](https://www.notion.so/image/" ++ E ++
      js "?table=block&id=" ++ Block.id block ++ js "&cache=v2)").
Proof.
  intros Himg Hshape HE.
  assert (exists f, selected_source image = Has f /\ FileObject.url f = Has u)
    as (f & Hsel & Hurl).
  { unfold selected_source.
    destruct Hshape as [[Hty (f & Hf & Hu)] | [Hty (f & Hf & Hu)]];
      rewrite Hty; exists f; split; assumption. }
  rewrite (imageTransformer_of_url block image f Himg Hsel), Hurl.
  cbn [to_string]. rewrite HE. reflexivity.
Qed.

Lemma imageTransformer_proxy_reference_witness :
  imageTransformer sample_hosted_block =
  Ok (js "![image](https://www.notion.so/image/" ++
      js "https%3A%2F%2Fs3.aws.com%2Fa%20b.png%3FX%3D1" ++
      js "?table=block&id=" ++ Block.id sample_hosted_block ++
      js "&cache=v2)").
Proof.
  apply (imageTransformer_proxy_reference sample_hosted_block
           (Image.mk (Has (js "file"))
              (Has (FileObject.mk (Has (js "https://s3.aws.com/a b.png?X=1"))))
              Undefined)
           (js "https://s3.aws.com/a b.png?X=1")).
  - reflexivity.
  - left. split; [reflexivity|]. eexists. split; reflexivity.
  - reflexivity.
Defined.

Example imageTransformer_external :
  imageTransformer sample_external_block =
  Ok (js "![image](https://www.notion.so/image/" ++
      js "https%3A%2F%2Fexample.com%2Fx.png" ++
      js "?table=block&id=ffee&cache=v2)").
Proof. reflexivity. Qed.

(** On a well-formed URL the encoding exists, so the transformer returns. *)
Lemma imageTransformer_returns
    (block : Block.t) (image : Image.t) (f : FileObject.t) (u : jsstring) :
  Block.image block = Has image ->
  selected_source image = Has f ->
  FileObject.url f = Has u ->
  well_formed u = true ->
  exists text, imageTransformer block = Ok text.
Proof.
  intros Himg Hsel Hurl Hwf.
  destruct (encodeURIComponent_total u Hwf) as [E HE].
  rewrite (imageTransformer_of_url block image f Himg Hsel), Hurl.
  cbn [to_string]. rewrite HE. eauto.
Qed.

(** C6, as stated, fails: a payload tagged ["file"] whose [file] object has
    no [url], and that has no [external] object, has neither shape, yet the
    transformer returns a reference (to the text [undefined]) instead of
    raising. *)
Lemma imageTransformer_urlless_returns :
  (exists image,
      Block.image sample_urlless_block = Has image /\
      (forall u, ~ hosted_shape image u) /\
      (forall u, ~ external_shape image u)) /\
  imageTransformer sample_urlless_block =
  Ok (js "![image](https://www.notion.so/image/" ++ js "undefined" ++
      js "?table=block&id=b1&cache=v2)").
Proof.
  split; [|reflexivity].
  eexists. split; [reflexivity|]. split; intros u [Hty (f & Hf & Hu)].
  - injection Hf as <-. discriminate.
  - discriminate.
Qed.

(** Without a payload, or without the object that the type tag selects, the
    transformer raises [TypeError]. *)
Lemma imageTransformer_sourceless (block : Block.t) :
  nullish (Block.image block) \/
  (exists image,
      Block.image block = Has image /\ nullish (selected_source image)) ->
  imageTransformer block = Throw TypeError.
Proof.
  unfold imageTransformer, selected_source, nullish.
  intros [[-> | ->] | (image & -> & Hsel)]; try reflexivity.
  destruct (is_file (Image.type image));
    destruct Hsel as [-> | ->]; reflexivity.
Qed.

(** ** Property extraction *)

Example frontmatter_bare :
  frontmatter (js "2024-05-06") sample_page_bare =
  js "---" ++ newline ++
  js "title: " ++ dquote ++ js "Untitled" ++ dquote ++ newline ++
  js "date: 2024-05-06" ++ newline ++
  js "categories: [" ++ dquote ++ js "blog" ++ dquote ++ js "]" ++ newline ++
  js "tags: [" ++ dquote ++ dquote ++ js "]" ++ newline ++
  js "description: " ++ dquote ++ dquote ++ newline ++
  js "permalink: /posts/12ab34cd56ef" ++ newline ++
  js "math: true" ++ newline ++
  js "---" ++ newline ++ newline.
Proof. reflexivity. Qed.

Example frontmatter_empty_same_as_bare :
  frontmatter (js "2024-05-06") sample_page_empty =
  frontmatter (js "2024-05-06") (Page.mk (js "aa-bb") Undefined).
Proof. reflexivity. Qed.

Example frontmatter_full :
  frontmatter (js "2024-05-06") sample_page_full =
  js "---" ++ newline ++
  js "title: " ++ dquote ++ js "Hello" ++ dquote ++ newline ++
  js "date: 2024-01-02" ++ newline ++
  js "categories: [" ++ dquote ++ js "dev" ++ dquote ++ js "]" ++ newline ++
  js "tags: [" ++ dquote ++ js "a" ++ dquote ++ js ", " ++ dquote ++ js "b" ++
  dquote ++ js "]" ++ newline ++
  js "description: " ++ dquote ++ js "A post" ++ dquote ++ newline ++
  js "permalink: /posts/hello-post" ++ newline ++
  js "math: true" ++ newline ++
  js "image:" ++ newline ++
  js "  path: " ++ dquote ++ js "https://img/x.png" ++ dquote ++ newline ++
  js "  alt: " ++ dquote ++ js "preview image" ++ dquote ++ newline ++
  js "---" ++ newline ++ newline.
Proof. reflexivity. Qed.

Lemma chain_nullish {A B : Type} (o : nullable A) (f : A -> nullable B) :
  nullish o -> chain o f = Undefined.
Proof. intros [-> | ->]; reflexivity. Qed.

Lemma first_plain_text_nullish (p : nullable RichTextProperty.t) :
  nullish p -> first_plain_text p = Undefined.
Proof. intros [-> | ->]; reflexivity. Qed.

Lemma first_plain_text_empty (p : RichTextProperty.t) :
  empty_text (RichTextProperty.rich_text p) ->
  truthy (first_plain_text (Has p)) = false.
Proof.
  unfold first_plain_text. simpl.
  intros [-> | (r & rest & -> & Hr)]; simpl; [reflexivity|].
  now rewrite Hr.
Qed.

Lemma or_else_falsy (o : nullable jsstring) (d : jsstring) :
  truthy o = false -> or_else o d = d.
Proof. destruct o as [| |[|c s]]; simpl; congruence. Qed.

Lemma present_chain {A : Type} (page : Page.t)
    (field : Properties.t -> nullable A) (value : A) :
  present page field value -> chain (Page.properties page) field = Has value.
Proof. intros (props & -> & Hf). exact Hf. Qed.

(** ** The run *)

Lemma for_of_throw_at {A : Type} (body : A -> IO unit)
    (pre post : list A) (x : A) (tr tr1 tr2 : list event) (e : error) :
  for_of pre body tr = (tr1, Ok tt) ->
  body x tr1 = (tr2, Throw e) ->
  for_of (pre ++ x :: post) body tr = (tr2, Throw e).
Proof.
  revert tr. induction pre as [|y pre IH]; intros tr Hpre Hx.
  - injection Hpre as <-. simpl. unfold mbind, IO_bind. now rewrite Hx.
  - simpl in *. unfold mbind, IO_bind in *.
    destruct (body y tr) as [tr' [[]|e']]; [|discriminate].
    now apply IH.
Qed.

Lemma apply_events_app (fs : filesystem) (tr1 tr2 : list event) :
  apply_events fs (tr1 ++ tr2) = apply_events (apply_events fs tr1) tr2.
Proof. unfold apply_events. apply List.fold_left_app. Qed.

Section ExporterProperties.

Variable process_env : jsstring -> nullable jsstring.
Variable databases_query : jsstring -> result (list Page.t).
Variable pageToMarkdown :
  (Block.t -> result jsstring) -> jsstring -> result (list MdBlock).
Variable toMarkdownString : list MdBlock -> MdStringObject.t.
Variable moment_format : list event -> jsstring.
Variable path_join : jsstring -> jsstring -> jsstring.
Variable mkdirSync_error : list event -> jsstring -> option error.
Variable writeFileSync_error :
  list event -> jsstring -> jsstring -> option error.

Local Abbreviation processPage_ :=
  (processPage pageToMarkdown toMarkdownString moment_format path_join
     writeFileSync_error).
Local Abbreviation main_ :=
  (main process_env databases_query pageToMarkdown toMarkdownString
     moment_format path_join mkdirSync_error writeFileSync_error).
Local Abbreviation run_ :=
  (run process_env databases_query pageToMarkdown toMarkdownString
     moment_format path_join mkdirSync_error writeFileSync_error).

(** A record whose conversion and write succeed: one remote fetch, one
    write, one log line. *)
Lemma processPage_ok (folder : jsstring) (page : Page.t)
    (tr : list event) (blocks : list MdBlock) :
  pageToMarkdown imageTransformer (Page.id page) = Ok blocks ->
  writeFileSync_error (tr ++ [PageToMarkdown (Page.id page)])
    (path_join folder (filename (moment_format tr) page))
    (frontmatter (moment_format tr) page ++
     to_string (MdStringObject.parent
                  (toMarkdownString (shiftHeadings blocks)))) = None ->
  processPage_ folder page tr =
  (tr ++
   [ PageToMarkdown (Page.id page);
     WriteFileSync (path_join folder (filename (moment_format tr) page))
       (frontmatter (moment_format tr) page ++
        to_string (MdStringObject.parent
                     (toMarkdownString (shiftHeadings blocks))));
     ConsoleLog (js "Generated: " ++ filename (moment_format tr) page) ],
   Ok tt).
Proof.
  intros Hmd Hwrite.
  unfold processPage, writeFileSync, mbind, IO_bind, history, emit, lift.
  rewrite Hmd, Hwrite. rewrite <- !app_assoc. reflexivity.
Qed.

(** A record whose conversion fails: the error leaves the loop body and
    nothing is written. *)
Lemma processPage_conversion_error (folder : jsstring) (page : Page.t)
    (tr : list event) (e : error) :
  pageToMarkdown imageTransformer (Page.id page) = Throw e ->
  processPage_ folder page tr =
  (tr ++ [PageToMarkdown (Page.id page)], Throw e).
Proof.
  intros Hmd.
  unfold processPage, mbind, IO_bind, history, emit, lift.
  now rewrite Hmd.
Qed.

(** With both variables set, a query that answers and a directory that
    can be created, the run reaches the loop after the prologue. *)
Lemma main_reaches_loop (results : list Page.t) :
  truthy (process_env (js "DATABASE_ID")) = true ->
  truthy (process_env (js "NOTION_TOKEN")) = true ->
  databases_query (to_string (process_env (js "DATABASE_ID"))) =
    Ok results ->
  mkdirSync_error
    [ DatabasesQuery (to_string (process_env (js "DATABASE_ID")));
      ConsoleLog (js "Converting " ++ decimal (List.length results) ++
                  js " post(s)...") ]
    (js "_posts") = None ->
  main_ [] =
  for_of results (processPage_ (js "_posts"))
    (prologue (to_string (process_env (js "DATABASE_ID")))
       (List.length results)).
Proof.
  intros Hdb Htok Hq Hmk. unfold main. rewrite Hdb, Htok.
  cbn [negb]. unfold mkdirSync, mbind, IO_bind, history, emit, lift.
  cbn [app]. rewrite Hq, Hmk. reflexivity.
Qed.

Lemma run_of_main_throw (tr : list event) (e : error) :
  main_ [] = (tr, Throw e) ->
  run_ = (tr ++ [ConsoleError (js "Export failed:") e], 1).
Proof. intros H. unfold run. now rewrite H. Qed.

(** C7: when [DATABASE_ID] or [NOTION_TOKEN] is missing, the run fails
    with exit code 1 and prints an error whose message names a missing
    variable ([DATABASE_ID] is tested first); the trace holds that one
    console line only: no remote call was issued, no directory created and
    no file written. *)
Theorem missing_env_fails_before_effects :
  missing process_env (js "DATABASE_ID") \/
  missing process_env (js "NOTION_TOKEN") ->
  exists name,
    (name = js "DATABASE_ID" \/ name = js "NOTION_TOKEN") /\
    missing process_env name /\
    run_ =
    ([ConsoleError (js "Export failed:")
        (Error (js "Missing required environment variable: " ++ name))],
     1) /\
    existsb is_network (fst run_) = false /\
    existsb is_file_system (fst run_) = false.
Proof.
  intros Hmiss. unfold missing in *.
  destruct (truthy (process_env (js "DATABASE_ID"))) eqn:Hdb.
  - destruct Hmiss as [Hmiss | Htok]; [discriminate|].
    exists (js "NOTION_TOKEN"). split; [now right|]. split; [exact Htok|].
    assert (run_ =
            ([ConsoleError (js "Export failed:")
                (Error (js "Missing required environment variable: " ++
                        js "NOTION_TOKEN"))], 1)) as Hrun.
    { unfold run, main. rewrite Hdb, Htok. reflexivity. }
    rewrite Hrun. repeat split.
  - exists (js "DATABASE_ID"). split; [now left|]. split; [exact Hdb|].
    assert (run_ =
            ([ConsoleError (js "Export failed:")
                (Error (js "Missing required environment variable: " ++
                        js "DATABASE_ID"))], 1)) as Hrun.
    { unfold run, main. rewrite Hdb. reflexivity. }
    rewrite Hrun. repeat split.
Qed.

(** The write of a processed record. A record whose conversion answers
    [blocks] and whose write the file system accepts produces exactly one
    write, of the file [<date>-<slug>.md] joined to the folder, whose
    content is the header followed by the string form of the [parent] entry
    of the rendered object; the header starts with the marker line [---],
    ends with the marker line and an empty line, and holds the line
    [math: true]; after the events of the record the file has that content,
    whatever it held before. The run creates the folder [_posts] before it
    processes any record. *)
Theorem record_written_once
    (folder : jsstring) (page : Page.t) (tr : list event)
    (blocks : list MdBlock) (today name body data : jsstring) :
  today = moment_format tr ->
  name = date today page ++ js "-" ++ pageId page ++ js ".md" ->
  body = to_string (MdStringObject.parent
                      (toMarkdownString (shiftHeadings blocks))) ->
  data = frontmatter today page ++ body ->
  pageToMarkdown imageTransformer (Page.id page) = Ok blocks ->
  writeFileSync_error (tr ++ [PageToMarkdown (Page.id page)])
    (path_join folder name) data = None ->
  exists added,
    processPage_ folder page tr = (tr ++ added, Ok tt) /\
    List.filter is_write added =
      [WriteFileSync (path_join folder name) data] /\
    (exists fields,
        frontmatter today page =
        js "---" ++ newline ++ fields ++ js "math: true" ++ newline ++
        imageFrontmatter page ++ js "---" ++ newline ++ newline) /\
    (forall fs,
        files (apply_events fs (tr ++ added)) !! path_join folder name =
        Some data) /\
    (forall results,
        truthy (process_env (js "DATABASE_ID")) = true ->
        truthy (process_env (js "NOTION_TOKEN")) = true ->
        databases_query (to_string (process_env (js "DATABASE_ID"))) =
          Ok results ->
        mkdirSync_error
          [ DatabasesQuery (to_string (process_env (js "DATABASE_ID")));
            ConsoleLog (js "Converting " ++ decimal (List.length results) ++
                        js " post(s)...") ]
          (js "_posts") = None ->
        main_ [] =
        for_of results (processPage_ (js "_posts"))
          (prologue (to_string (process_env (js "DATABASE_ID")))
             (List.length results)) /\
        forall fs,
          js "_posts" ∈
          dirs (apply_events fs
                  (prologue (to_string (process_env (js "DATABASE_ID")))
                     (List.length results)))).
Proof.
  intros -> -> -> -> Hmd Hwrite.
  eexists. split; [|split; [|split; [|split]]].
  - apply (processPage_ok folder page tr blocks Hmd Hwrite).
  - reflexivity.
  - exists (js "title: " ++ dquote ++ title page ++ dquote ++ newline ++
            js "date: " ++ date (moment_format tr) page ++ newline ++
            js "categories: [" ++ dquote ++ category page ++ dquote ++
            js "]" ++ newline ++
            js "tags: [" ++ dquote ++
            join (dquote ++ js ", " ++ dquote) (tags page) ++ dquote ++
            js "]" ++ newline ++
            js "description: " ++ dquote ++ description page ++ dquote ++
            newline ++
            js "permalink: /posts/" ++ pageId page ++ newline).
    unfold frontmatter. rewrite <- !app_assoc. reflexivity.
  - intros fs. rewrite apply_events_app. unfold apply_events.
    cbn [List.fold_left apply_event files]. apply lookup_insert_eq.
  - intros results Hdb Htok Hq Hmk. split.
    + now apply main_reaches_loop.
    + intros fs. unfold prologue, apply_events.
      cbn [List.fold_left apply_event dirs]. set_solver.
Qed.

Lemma frontmatter_header_with (today : jsstring) (page : Page.t) :
  frontmatter today page =
  header_with (title page) (date today page) (category page)
    (tags_text page) (description page) (pageId page)
    (imageFrontmatter page).
Proof. reflexivity. Qed.

Lemma no_text_falsy (items : nullable (list RichText.t)) :
  no_text items ->
  truthy (chain (first items) RichText.plain_text) = false.
Proof.
  intros [[-> | ->] | [-> | (r & rest & -> & Hr)]]; try reflexivity.
  cbn [first chain]. now destruct Hr as [-> | ->].
Qed.

Lemma lacks_title_falsy (page : Page.t) :
  lacks_title page -> truthy (title_text page) = false.
Proof.
  unfold title_text. intros [Habs | (p & Hp & Hno)].
  - now rewrite (chain_nullish _ _ Habs).
  - rewrite (present_chain _ _ _ Hp). cbn [chain].
    now apply no_text_falsy.
Qed.

Lemma lacks_text_falsy (page : Page.t)
    (field : Properties.t -> nullable RichTextProperty.t) :
  lacks_text page field ->
  truthy (first_plain_text (chain (Page.properties page) field)) = false.
Proof.
  intros [Habs | (p & Hp & Hno)].
  - now rewrite (first_plain_text_nullish _ Habs).
  - rewrite (present_chain _ _ _ Hp). unfold first_plain_text.
    cbn [chain]. now apply no_text_falsy.
Qed.

Lemma lacks_category_falsy (page : Page.t) :
  lacks_category page -> truthy (category_name page) = false.
Proof.
  unfold category_name. intros [Habs | (p & Hp & Hno)].
  - now rewrite (chain_nullish _ _ Habs).
  - rewrite (present_chain _ _ _ Hp). cbn [chain].
    destruct Hno as [[-> | ->] | (o & -> & Hname)]; try reflexivity.
    cbn [chain]. now destruct Hname as [-> | ->].
Qed.

Lemma lacks_date_falsy (page : Page.t) :
  lacks_date page -> truthy (date_start page) = false.
Proof.
  unfold date_start. intros [Habs | (p & Hp & Hno)].
  - now rewrite (chain_nullish _ _ Habs).
  - rewrite (present_chain _ _ _ Hp). cbn [chain].
    destruct Hno as [[-> | ->] | (d & -> & Hstart)]; try reflexivity.
    cbn [chain]. now destruct Hstart as [-> | ->].
Qed.

Lemma lacks_tags_none (page : Page.t) :
  lacks_tags page -> tags page = [].
Proof.
  unfold tags, multi_select_of. intros [Habs | (p & Hp & Hno)].
  - now rewrite (chain_nullish _ _ Habs).
  - rewrite (present_chain _ _ _ Hp). cbn [chain].
    destruct Hno as [[-> | ->] | ->]; reflexivity.
Qed.

Lemma falsy_thumbnail_no_image (page : Page.t) :
  truthy (thumbnailUrl page) = false -> imageFrontmatter page = [].
Proof. intros H. unfold imageFrontmatter. now rewrite H. Qed.

(** C5: every field that a record lacks takes its default, in the value
    and in the header. A record lacks a field when the property set, the
    property or an entry on the way to its value is [undefined] or [null]
    (as in [select: null] or [date: null]) or the array at its end is
    empty. Without a title the title is [Untitled]; without a slug the
    permalink slug, and the slug of the file name, is the identifier of the
    record with every [-] removed; without a description it is the empty
    text; without a category it is [blog]; without a date it is what the
    clock answers at that point of the run; without tags the tag list is
    empty and the header holds the line [tags: [<quote><quote>]]. Each
    default stands at its place in the header, and a record that lacks
    every field has the header of defaults. No field is required: whatever
    the record lacks, the record is processed without error as soon as its
    conversion and its write succeed. *)
Theorem absent_fields_take_defaults (page : Page.t) :
  (lacks_title page ->
     title page = js "Untitled" /\
     forall today,
       frontmatter today page =
       header_with (js "Untitled") (date today page) (category page)
         (tags_text page) (description page) (pageId page)
         (imageFrontmatter page)) /\
  (lacks_text page Properties.page_id ->
     pageId page = remove_all 45 (Page.id page) /\
     ~ In 45 (pageId page) /\
     forall today,
       frontmatter today page =
       header_with (title page) (date today page) (category page)
         (tags_text page) (description page)
         (remove_all 45 (Page.id page)) (imageFrontmatter page) /\
       filename today page =
       date today page ++ js "-" ++ remove_all 45 (Page.id page) ++
       js ".md") /\
  (lacks_text page Properties.description ->
     description page = [] /\
     forall today,
       frontmatter today page =
       header_with (title page) (date today page) (category page)
         (tags_text page) [] (pageId page) (imageFrontmatter page)) /\
  (lacks_category page ->
     category page = js "blog" /\
     forall today,
       frontmatter today page =
       header_with (title page) (date today page) (js "blog")
         (tags_text page) (description page) (pageId page)
         (imageFrontmatter page)) /\
  (lacks_date page ->
     forall tr,
       date (moment_format tr) page = moment_format tr /\
       frontmatter (moment_format tr) page =
       header_with (title page) (moment_format tr) (category page)
         (tags_text page) (description page) (pageId page)
         (imageFrontmatter page) /\
       filename (moment_format tr) page =
       moment_format tr ++ js "-" ++ pageId page ++ js ".md") /\
  (lacks_tags page ->
     tags page = [] /\
     forall today,
       frontmatter today page =
       header_with (title page) (date today page) (category page)
         [] (description page) (pageId page) (imageFrontmatter page) /\
       exists before after,
         frontmatter today page =
         before ++ newline ++
         js "tags: [" ++ dquote ++ dquote ++ js "]" ++ newline ++ after) /\
  (lacks_title page -> lacks_text page Properties.page_id ->
   lacks_text page Properties.description ->
   lacks_text page Properties.thumbnail_url ->
   lacks_category page -> lacks_tags page -> lacks_date page ->
   forall tr,
     frontmatter (moment_format tr) page =
     js "---" ++ newline ++
     js "title: " ++ dquote ++ js "Untitled" ++ dquote ++ newline ++
     js "date: " ++ moment_format tr ++ newline ++
     js "categories: [" ++ dquote ++ js "blog" ++ dquote ++ js "]" ++
     newline ++
     js "tags: [" ++ dquote ++ dquote ++ js "]" ++ newline ++
     js "description: " ++ dquote ++ dquote ++ newline ++
     js "permalink: /posts/" ++ remove_all 45 (Page.id page) ++ newline ++
     js "math: true" ++ newline ++
     js "---" ++ newline ++ newline) /\
  (forall folder tr blocks,
      pageToMarkdown imageTransformer (Page.id page) = Ok blocks ->
      writeFileSync_error (tr ++ [PageToMarkdown (Page.id page)])
        (path_join folder (filename (moment_format tr) page))
        (frontmatter (moment_format tr) page ++
         to_string (MdStringObject.parent
                      (toMarkdownString (shiftHeadings blocks)))) = None ->
      snd (processPage_ folder page tr) = Ok tt).
Proof.
  assert (forall Hl : lacks_title page, title page = js "Untitled")
    as Htitle.
  { intros Hl. unfold title. apply or_else_falsy.
    now apply lacks_title_falsy. }
  assert (forall Hl : lacks_text page Properties.page_id,
             pageId page = remove_all 45 (Page.id page)) as Hslug.
  { intros Hl. unfold pageId, page_id_text. apply or_else_falsy.
    now apply lacks_text_falsy. }
  assert (forall Hl : lacks_text page Properties.description,
             description page = []) as Hdesc.
  { intros Hl. unfold description, description_text. apply or_else_falsy.
    now apply lacks_text_falsy. }
  assert (forall Hl : lacks_category page, category page = js "blog")
    as Hcat.
  { intros Hl. unfold category. apply or_else_falsy.
    now apply lacks_category_falsy. }
  assert (forall (Hl : lacks_date page) today, date today page = today)
    as Hdate.
  { intros Hl today. unfold date. apply or_else_falsy.
    now apply lacks_date_falsy. }
  assert (forall Hl : lacks_tags page, tags_text page = []) as Htags.
  { intros Hl. unfold tags_text. now rewrite (lacks_tags_none page Hl). }
  split; [|split; [|split; [|split; [|split; [|split; [|split]]]]]].
  - intros Hl. split; [now apply Htitle|]. intros today.
    now rewrite frontmatter_header_with, (Htitle Hl).
  - intros Hl. split; [now apply Hslug|]. split.
    + rewrite (Hslug Hl). unfold remove_all. rewrite List.filter_In.
      intros [_ Hne]. discriminate.
    + intros today. split.
      * now rewrite frontmatter_header_with, (Hslug Hl).
      * unfold filename. now rewrite (Hslug Hl).
  - intros Hl. split; [now apply Hdesc|]. intros today.
    now rewrite frontmatter_header_with, (Hdesc Hl).
  - intros Hl. split; [now apply Hcat|]. intros today.
    now rewrite frontmatter_header_with, (Hcat Hl).
  - intros Hl tr. split; [now apply Hdate|]. split.
    + now rewrite frontmatter_header_with, (Hdate Hl).
    + unfold filename. now rewrite (Hdate Hl).
  - intros Hl. split; [now apply lacks_tags_none|]. intros today.
    rewrite frontmatter_header_with, (Htags Hl). split; [reflexivity|].
    exists (js "---" ++ newline ++
            js "title: " ++ dquote ++ title page ++ dquote ++ newline ++
            js "date: " ++ date today page ++ newline ++
            js "categories: [" ++ dquote ++ category page ++ dquote ++
            js "]"),
           (js "description: " ++ dquote ++ description page ++ dquote ++
            newline ++
            js "permalink: /posts/" ++ pageId page ++ newline ++
            js "math: true" ++ newline ++
            imageFrontmatter page ++ js "---" ++ newline ++ newline).
    unfold header_with. rewrite <- !app_assoc. reflexivity.
  - intros Hl1 Hl2 Hl3 Hl4 Hl5 Hl6 Hl7 tr.
    rewrite frontmatter_header_with, (Htitle Hl1), (Hslug Hl2), (Hdesc Hl3),
      (Hcat Hl5), (Htags Hl6), (Hdate Hl7).
    rewrite (falsy_thumbnail_no_image page
               (lacks_text_falsy page Properties.thumbnail_url Hl4)).
    reflexivity.
  - intros folder tr blocks Hmd Hwrite.
    now rewrite (processPage_ok folder page tr blocks Hmd Hwrite).
Qed.

(** C6 (amended): an image block without payload, or whose payload lacks
    the object selected by its type tag ([file] for the type ["file"],
    [external] otherwise), makes the transformer raise [TypeError]
    instead of returning a text; and an error raised by the conversion of
    a record is caught nowhere in the loop: the run stops at that record,
    writes no file for it and ends with exit code 1 after printing the
    error. *)
Theorem sourceless_image_aborts_record :
  (forall block,
      nullish (Block.image block) \/
      (exists image,
          Block.image block = Has image /\
          nullish (selected_source image)) ->
      imageTransformer block = Throw TypeError) /\
  (forall pre page post tr1 e,
      truthy (process_env (js "DATABASE_ID")) = true ->
      truthy (process_env (js "NOTION_TOKEN")) = true ->
      databases_query (to_string (process_env (js "DATABASE_ID"))) =
        Ok (pre ++ page :: post) ->
      mkdirSync_error
        [ DatabasesQuery (to_string (process_env (js "DATABASE_ID")));
          ConsoleLog (js "Converting " ++
                      decimal (List.length (pre ++ page :: post)) ++
                      js " post(s)...") ]
        (js "_posts") = None ->
      for_of pre (processPage_ (js "_posts"))
        (prologue (to_string (process_env (js "DATABASE_ID")))
           (List.length (pre ++ page :: post))) = (tr1, Ok tt) ->
      pageToMarkdown imageTransformer (Page.id page) = Throw e ->
      run_ =
      (tr1 ++ [ PageToMarkdown (Page.id page);
                ConsoleError (js "Export failed:") e ], 1)).
Proof.
  split; [exact imageTransformer_sourceless|].
  intros pre page post tr1 e Hdb Htok Hq Hmk Hpre Hmd.
  rewrite (run_of_main_throw (tr1 ++ [PageToMarkdown (Page.id page)]) e).
  - now rewrite <- app_assoc.
  - rewrite (main_reaches_loop _ Hdb Htok Hq Hmk).
    apply (for_of_throw_at _ pre post page _ tr1); [exact Hpre|].
    now apply processPage_conversion_error.
Qed.

(** C8: the code departs from the claim at a record whose page has no
    block. The renderer then returns an object without [parent] entry, and
    the one file written for the record holds the header followed by the
    text [undefined], where the claim has the header followed by the
    Markdown body (which is empty for such a page): the source appends
    [mdString.parent] without the default that every other value of the
    loop gets. *)
Theorem page_without_body_writes_undefined
    (folder : jsstring) (page : Page.t) (tr : list event)
    (blocks : list MdBlock) :
  pageToMarkdown imageTransformer (Page.id page) = Ok blocks ->
  MdStringObject.parent (toMarkdownString (shiftHeadings blocks)) =
    Undefined ->
  writeFileSync_error (tr ++ [PageToMarkdown (Page.id page)])
    (path_join folder (filename (moment_format tr) page))
    (frontmatter (moment_format tr) page ++ js "undefined") = None ->
  exists added,
    processPage_ folder page tr = (tr ++ added, Ok tt) /\
    List.filter is_write added =
    [ WriteFileSync (path_join folder (filename (moment_format tr) page))
        (frontmatter (moment_format tr) page ++ js "undefined") ].
Proof.
  intros Hmd Hparent Hwrite.
  assert (to_string (MdStringObject.parent
                       (toMarkdownString (shiftHeadings blocks))) =
          js "undefined") as Hbody by now rewrite Hparent.
  rewrite <- Hbody in Hwrite.
  eexists. split.
  - apply (processPage_ok folder page tr blocks Hmd Hwrite).
  - cbn [List.filter is_write]. now rewrite Hbody.
Qed.

End ExporterProperties.

(** C9: defaulting is triggered by falsiness. A title, slug or description
    whose property is there but whose rich-text list is empty, or whose
    first run has the empty text, takes the default of an absent property;
    so do a category whose option has the empty name and a date whose start
    is the empty text. *)
Theorem empty_values_take_defaults (page : Page.t) (today : jsstring) :
  (forall p, present page Properties.title p ->
             empty_text (TitleProperty.title p) ->
             title page = js "Untitled") /\
  (forall p, present page Properties.page_id p ->
             empty_text (RichTextProperty.rich_text p) ->
             pageId page = remove_all 45 (Page.id page)) /\
  (forall p, present page Properties.description p ->
             empty_text (RichTextProperty.rich_text p) ->
             description page = []) /\
  (forall p o, present page Properties.category p ->
               SelectProperty.select p = Has o ->
               SelectOption.name o = Has [] ->
               category page = js "blog") /\
  (forall p d, present page Properties.date p ->
               DateProperty.date p = Has d ->
               DateValue.start d = Has [] ->
               date today page = today).
Proof.
  repeat split.
  - intros p Hp Hempty. unfold title, title_text.
    rewrite (present_chain _ _ _ Hp). apply or_else_falsy. cbn [chain].
    destruct Hempty as [-> | (r & rest & -> & Hr)]; cbn [first chain];
      [reflexivity|].
    now rewrite Hr.
  - intros p Hp Hempty. unfold pageId, page_id_text.
    rewrite (present_chain _ _ _ Hp). apply or_else_falsy.
    now apply first_plain_text_empty.
  - intros p Hp Hempty. unfold description, description_text.
    rewrite (present_chain _ _ _ Hp). apply or_else_falsy.
    now apply first_plain_text_empty.
  - intros p o Hp Hsel Hname. unfold category, category_name.
    rewrite (present_chain _ _ _ Hp). cbn [chain]. rewrite Hsel.
    cbn [chain]. now rewrite Hname.
  - intros p d Hp Hd Hstart. unfold date, date_start.
    rewrite (present_chain _ _ _ Hp). cbn [chain]. rewrite Hd.
    cbn [chain]. now rewrite Hstart.
Qed.

(** ** The theorems at sample inputs *)

Lemma missing_env_fails_before_effects_witness :
  exists name,
    (name = js "DATABASE_ID" \/ name = js "NOTION_TOKEN") /\
    missing sample_env_no_token name /\
    sample_run sample_env_no_token [sample_page_full] =
    ([ConsoleError (js "Export failed:")
        (Error (js "Missing required environment variable: " ++ name))],
     1) /\
    existsb is_network
      (fst (sample_run sample_env_no_token [sample_page_full])) = false /\
    existsb is_file_system
      (fst (sample_run sample_env_no_token [sample_page_full])) = false.
Proof.
  apply (missing_env_fails_before_effects sample_env_no_token
           (sample_query [sample_page_full]) sample_pageToMarkdown
           sample_toMarkdownString sample_moment sample_join
           sample_mkdir_ok sample_write_ok).
  right. reflexivity.
Defined.

Lemma record_written_once_witness :
  exists added,
    processPage sample_pageToMarkdown sample_toMarkdownString sample_moment
      sample_join sample_write_ok (js "_posts") sample_page_full [] =
    ([] ++ added, Ok tt) /\
    List.filter is_write added =
    [ WriteFileSync (js "_posts/2024-01-02-hello-post.md")
        (frontmatter (js "2024-05-06") sample_page_full ++
         js "hello" ++ newline ++ js "# not a heading") ].
Proof.
  destruct (record_written_once sample_env (sample_query [sample_page_full])
              sample_pageToMarkdown sample_toMarkdownString sample_moment
              sample_join sample_mkdir_ok sample_write_ok
              (js "_posts") sample_page_full [] sample_tree
              (js "2024-05-06") (js "2024-01-02-hello-post.md")
              (js "hello" ++ newline ++ js "# not a heading")
              (frontmatter (js "2024-05-06") sample_page_full ++
               js "hello" ++ newline ++ js "# not a heading"))
    as (added & Hrun & Hwrites & _); try reflexivity.
  exists added. split; assumption.
Defined.

Lemma page_without_body_writes_undefined_witness :
  exists added,
    processPage sample_convert_empty sample_render sample_moment sample_join
      sample_write_ok (js "_posts") sample_page_full [] =
    ([] ++ added, Ok tt) /\
    List.filter is_write added =
    [ WriteFileSync (js "_posts/2024-01-02-hello-post.md")
        (frontmatter (js "2024-05-06") sample_page_full ++
         js "undefined") ].
Proof.
  apply (page_without_body_writes_undefined sample_convert_empty
           sample_render sample_moment sample_join sample_write_ok
           (js "_posts") sample_page_full [] []); reflexivity.
Defined.

Lemma sourceless_image_aborts_record_witness :
  imageTransformer sample_sourceless_block = Throw TypeError /\
  sample_run sample_env [sample_page_full; sample_page_bare] =
  ((prologue (js "db1") 2 ++
    [ PageToMarkdown (js "99-77");
      WriteFileSync (js "_posts/2024-01-02-hello-post.md")
        (frontmatter (js "2024-05-06") sample_page_full ++
         js "hello" ++ newline ++ js "# not a heading");
      ConsoleLog (js "Generated: 2024-01-02-hello-post.md") ]) ++
   [ PageToMarkdown (Page.id sample_page_bare);
     ConsoleError (js "Export failed:") TypeError ], 1).
Proof.
  destruct (sourceless_image_aborts_record sample_env
              (sample_query [sample_page_full; sample_page_bare])
              sample_pageToMarkdown sample_toMarkdownString sample_moment
              sample_join sample_mkdir_ok sample_write_ok)
    as [Htransformer Hrun].
  split.
  - apply Htransformer. right. eexists. split; [reflexivity|].
    left. reflexivity.
  - apply (Hrun [sample_page_full] sample_page_bare [] _ TypeError);
      reflexivity.
Defined.

Lemma absent_fields_take_defaults_witness :
  title sample_page_unset = js "Untitled" /\
  pageId sample_page_unset = js "0f1e2d" /\
  category sample_page_unset = js "blog" /\
  tags sample_page_unset = [] /\
  frontmatter (sample_moment []) sample_page_unset =
  js "---" ++ newline ++
  js "title: " ++ dquote ++ js "Untitled" ++ dquote ++ newline ++
  js "date: " ++ js "2024-05-06" ++ newline ++
  js "categories: [" ++ dquote ++ js "blog" ++ dquote ++ js "]" ++
  newline ++
  js "tags: [" ++ dquote ++ dquote ++ js "]" ++ newline ++
  js "description: " ++ dquote ++ dquote ++ newline ++
  js "permalink: /posts/" ++ js "0f1e2d" ++ newline ++
  js "math: true" ++ newline ++
  js "---" ++ newline ++ newline.
Proof.
  destruct (absent_fields_take_defaults sample_pageToMarkdown
              sample_toMarkdownString sample_moment sample_join
              sample_write_ok sample_page_unset)
    as (Htitle & Hslug & _ & Hcat & _ & Htags & Hall & _).
  assert (no_text (Has (@nil RichText.t))) as Hempty by (right; now left).
  assert (lacks_title sample_page_unset) as Hl1.
  { right. eexists. split; [eexists; split; reflexivity | exact Hempty]. }
  assert (forall field value,
             present sample_page_unset field
               (RichTextProperty.mk value) ->
             no_text value -> lacks_text sample_page_unset field) as Htext.
  { intros field value Hp Hno. right. eexists. split; [exact Hp | exact Hno]. }
  assert (lacks_text sample_page_unset Properties.page_id) as Hl2.
  { apply (Htext _ (Has [])); [eexists; split; reflexivity | exact Hempty]. }
  assert (lacks_text sample_page_unset Properties.description) as Hl3.
  { apply (Htext _ (Has [])); [eexists; split; reflexivity | exact Hempty]. }
  assert (lacks_text sample_page_unset Properties.thumbnail_url) as Hl4.
  { apply (Htext _ (Has [])); [eexists; split; reflexivity | exact Hempty]. }
  assert (lacks_category sample_page_unset) as Hl5.
  { right. eexists. split; [eexists; split; reflexivity|].
    left. right. reflexivity. }
  assert (lacks_tags sample_page_unset) as Hl6.
  { right. eexists. split; [eexists; split; reflexivity|].
    right. reflexivity. }
  assert (lacks_date sample_page_unset) as Hl7.
  { right. eexists. split; [eexists; split; reflexivity|].
    left. right. reflexivity. }
  split; [exact (proj1 (Htitle Hl1))|].
  split; [exact (proj1 (Hslug Hl2))|].
  split; [exact (proj1 (Hcat Hl5))|].
  split; [exact (proj1 (Htags Hl6))|].
  exact (Hall Hl1 Hl2 Hl3 Hl4 Hl5 Hl6 Hl7 []).
Defined.

Lemma empty_values_take_defaults_witness :
  title sample_page_empty = js "Untitled" /\
  pageId sample_page_empty = js "aabb" /\
  date (js "2024-05-06") sample_page_empty = js "2024-05-06".
Proof.
  destruct (empty_values_take_defaults sample_page_empty (js "2024-05-06"))
    as (Htitle & Hslug & _ & _ & Hdate).
  split; [|split].
  - eapply Htitle; [eexists; split; reflexivity|]. left. reflexivity.
  - eapply Hslug; [eexists; split; reflexivity|].
    right. eexists _, _. split; reflexivity.
  - eapply Hdate; [eexists; split; reflexivity| |]; reflexivity.
Defined.

Lemma shiftHeadings_frame_witness :
  List.map skeleton (shiftHeadings sample_tree) = List.map skeleton sample_tree.
Proof. exact (proj1 (shiftHeadings_frame sample_tree)). Defined.

(** An unpaired surrogate in the URL makes the transformer throw: the URL
    has no percent-encoding. *)
Example imageTransformer_lone_surrogate :
  imageTransformer
    (Block.mk (js "b3")
       (Has (Image.mk (Has (js "file"))
               (Has (FileObject.mk (Has [104; 55357]))) Undefined))) =
  Throw URIError.
Proof. reflexivity. Qed.

(** The run of the sample world on the full record alone: the prologue,
    then one fetch, one write and one log line, and the exit code 0. *)
Example sample_run_ok :
  sample_run sample_env [sample_page_full] =
  (prologue (js "db1") 1 ++
   [ PageToMarkdown (js "99-77");
     WriteFileSync (js "_posts/2024-01-02-hello-post.md")
       (frontmatter (js "2024-05-06") sample_page_full ++
        js "hello" ++ newline ++ js "# not a heading");
     ConsoleLog (js "Generated: 2024-01-02-hello-post.md") ], 0).
Proof. reflexivity. Qed.

(** * Further properties *)

(** ** The heading shifter *)

(** A rewritten text is the old one, or the old one after one more [#]. *)
Lemma shiftParent_cases (ty p : jsstring) :
  shiftParent ty p = p \/ shiftParent ty p = 35 :: p.
Proof.
  unfold shiftParent, replace_at_start.
  repeat case_bool_decide; try (now left);
    (destruct (strip_prefix _ p) as [rest|] eqn:E; [|now left]);
    apply strip_prefix_spec in E; subst p; now right.
Qed.

Lemma shiftParent_result_not_matching (ty id p : jsstring)
    (cs : list MdBlock) :
  ~ matching_heading (mkMdBlock ty id (shiftParent ty p) cs).
Proof.
  unfold matching_heading. cbn [type parent].
  intros [[-> H] | [[-> H] | [-> H]]]; revert H;
    [rewrite shiftParent_heading_1 | rewrite shiftParent_heading_2
     | rewrite shiftParent_heading_3];
    unfold replace_at_start;
    (destruct (strip_prefix _ p) as [rest|] eqn:E;
     [ intros [r Hr]; discriminate Hr
     | now apply strip_prefix_None ]).
Qed.

Lemma block_at_child (blocks : list MdBlock) (i j : nat) (q : list nat)
    (b : MdBlock) :
  blocks !! i = Some b ->
  block_at blocks (i :: j :: q) = block_at (children b) (j :: q).
Proof. intros H. simpl. now rewrite H. Qed.

Lemma map_fixed {A : Type} (f : A -> A) (l : list A) :
  (forall i x, l !! i = Some x -> f x = x) -> List.map f l = l.
Proof.
  induction l as [|a l IH]; intros H; [reflexivity|]. simpl. f_equal.
  - apply (H 0%nat). reflexivity.
  - apply IH. intros i x Hi. apply (H (S i)). exact Hi.
Qed.

Lemma shiftBlock_fixed (b : MdBlock) :
  ~ matching_heading b ->
  (forall q b', block_at (children b) q = Some b' -> ~ matching_heading b') ->
  shiftBlock b = b.
Proof.
  induction b as [ty id p cs IH] using MdBlock_forall_ind.
  intros Hb Hsub. rewrite shiftBlock_unfold.
  cbn [type blockId parent children] in *.
  f_equal.
  - apply (shiftParent_not_matching (mkMdBlock ty id p cs) Hb).
  - apply map_fixed. intros i c Hc.
    rewrite Forall_forall in IH.
    apply IH.
    + apply list_elem_of_lookup. eauto.
    + apply (Hsub [i]). simpl. now rewrite Hc.
    + intros q b' Hq. destruct q as [|j q]; [discriminate|].
      apply (Hsub (i :: j :: q)). now rewrite (block_at_child cs i j q c Hc).
Qed.

(** X1: after the shifter has run, no block of the tree is a heading whose
    text starts with the prefix of its own level. *)
Theorem shiftHeadings_leaves_no_match
    (blocks : list MdBlock) (path : list nat) (b' : MdBlock) :
  block_at (shiftHeadings blocks) path = Some b' ->
  ~ matching_heading b'.
Proof.
  rewrite block_at_shiftHeadings.
  destruct (block_at blocks path) as [b|]; [|discriminate].
  intros [= <-]. rewrite shiftBlock_unfold.
  apply shiftParent_result_not_matching.
Qed.

Lemma shiftHeadings_leaves_no_match_witness :
  ~ matching_heading
      (mkMdBlock (js "heading_2") (js "h2") (js "### Inner") []).
Proof.
  apply (shiftHeadings_leaves_no_match sample_tree [1; 0]%nat).
  reflexivity.
Defined.

(** X2: the shifter leaves a tree exactly as it is if and only if no block
    of the tree, at any depth, is a heading whose text starts with the
    prefix of its level. *)
Theorem shiftHeadings_unchanged_iff (blocks : list MdBlock) :
  shiftHeadings blocks = blocks <->
  (forall path b, block_at blocks path = Some b -> ~ matching_heading b).
Proof.
  split.
  - intros Heq path b Hat Hmatch.
    pose proof (block_at_shiftHeadings blocks path) as Hs.
    rewrite Heq, Hat in Hs. simpl in Hs. injection Hs as Hs.
    destruct (shiftBlock_fields b) as (_ & _ & Hp & _).
    rewrite <- Hs, (shiftParent_matching b Hmatch) in Hp.
    apply (f_equal (@List.length Z)) in Hp. simpl in Hp. lia.
  - intros Hno. apply map_fixed. intros i b Hb. apply shiftBlock_fixed.
    + apply (Hno [i]). simpl. now rewrite Hb.
    + intros q b' Hq. destruct q as [|j q]; [discriminate|].
      apply (Hno (i :: j :: q)).
      now rewrite (block_at_child blocks i j q b Hb).
Qed.

Lemma leading_hashes_drop (s : jsstring) :
  leading_hashes (35 :: s) = S (leading_hashes s) /\
  drop_hashes (35 :: s) = drop_hashes s.
Proof. split; reflexivity. Qed.

(** X3: the shifter changes nothing of a text but its run of leading [#],
    and that by one at most: for the block at any path, the text after the
    leading [#] is the same before and after, and the number of leading
    [#] stays or grows by one. *)
Theorem shiftHeadings_keeps_text_after_hashes
    (blocks : list MdBlock) (path : list nat) (b : MdBlock) :
  block_at blocks path = Some b ->
  exists b',
    block_at (shiftHeadings blocks) path = Some b' /\
    drop_hashes (parent b') = drop_hashes (parent b) /\
    (leading_hashes (parent b) <= leading_hashes (parent b') <=
     S (leading_hashes (parent b)))%nat.
Proof.
  intros Hat. exists (shiftBlock b).
  rewrite block_at_shiftHeadings, Hat. split; [reflexivity|].
  destruct (shiftBlock_fields b) as (_ & _ & -> & _).
  destruct (shiftParent_cases (type b) (parent b)) as [-> | ->].
  - split; [reflexivity | lia].
  - destruct (leading_hashes_drop (parent b)) as [-> ->].
    split; [reflexivity | lia].
Qed.

Lemma shiftHeadings_keeps_text_after_hashes_witness :
  exists b',
    block_at (shiftHeadings sample_tree) [1; 2; 0]%nat = Some b' /\
    drop_hashes (parent b') = drop_hashes (parent sample_heading) /\
    (leading_hashes (parent sample_heading) <= leading_hashes (parent b') <=
     S (leading_hashes (parent sample_heading)))%nat.
Proof.
  apply (shiftHeadings_keeps_text_after_hashes sample_tree [1; 2; 0]%nat
           sample_heading).
  reflexivity.
Defined.

(** ** The image transformer *)

(** Induction on a text that follows the recursion of
    [encodeURIComponent]: one code unit at a time, or two for a pair. *)
Lemma jsstring_pair_ind (P : jsstring -> Prop) :
  P [] ->
  (forall c rest,
      P rest -> (forall d rest', rest = d :: rest' -> P rest') ->
      P (c :: rest)) ->
  forall s, P s.
Proof.
  intros Hnil Hstep s.
  assert (forall n s, (List.length s <= n)%nat -> P s) as Hall.
  { clear s. induction n as [|n IH]; intros s Hlen.
    - destruct s; [exact Hnil | simpl in Hlen; lia].
    - destruct s as [|c rest]; [exact Hnil|]. simpl in Hlen.
      apply Hstep.
      + apply IH. lia.
      + intros d rest' ->. apply IH. simpl in Hlen. lia. }
  apply (Hall (List.length s)). lia.
Qed.

(** The built-in returns on the texts without unpaired surrogate and throws
    [URIError] on the others. *)
Lemma encodeURIComponent_cases (s : jsstring) :
  (well_formed s = true /\ exists E, encodeURIComponent s = Ok E) \/
  (well_formed s = false /\ encodeURIComponent s = Throw URIError).
Proof.
  induction s as [|c rest IH IH2] using jsstring_pair_ind.
  - left. split; [reflexivity | now exists []].
  - simpl. destruct (uriUnescaped c) eqn:Hu.
    + destruct (uriUnescaped_not_surrogate c Hu) as [-> ->].
      destruct IH as [[-> [E ->]] | [-> ->]]; [left | right]; eauto.
    + destruct (is_trail_surrogate c); [now right|].
      destruct (is_lead_surrogate c).
      * destruct rest as [|d rest']; [now right|].
        destruct (is_trail_surrogate d); [|now right]. simpl.
        destruct (IH2 d rest' eq_refl) as [[-> [E ->]] | [-> ->]];
          [left | right]; eauto.
      * destruct IH as [[-> [E ->]] | [-> ->]]; [left | right]; eauto.
Qed.

Lemma nullable_cases {A : Type} (o : nullable A) :
  nullish o \/ exists a, o = Has a.
Proof. destruct o; [left; now left | left; now right | right; eauto]. Qed.

(** X4: the transformer fails in two ways only. It raises [TypeError]
    exactly when the payload or the object selected by the type tag is
    absent, it raises [URIError] exactly when the text of the URL holds an
    unpaired surrogate, and in every other case it returns the proxy
    reference of the encoded URL and the identifier of the block. *)
Theorem imageTransformer_outcomes (block : Block.t) :
  match imageTransformer block with
  | Ok text =>
      exists image f E,
        Block.image block = Has image /\
        selected_source image = Has f /\
        well_formed (to_string (FileObject.url f)) = true /\
        encodeURIComponent (to_string (FileObject.url f)) = Ok E /\
        text = proxy_reference E (Block.id block)
  | Throw e =>
      (e = TypeError /\
       (nullish (Block.image block) \/
        exists image,
          Block.image block = Has image /\
          nullish (selected_source image))) \/
      (e = URIError /\
       exists image f,
         Block.image block = Has image /\
         selected_source image = Has f /\
         well_formed (to_string (FileObject.url f)) = false)
  end.
Proof.
  destruct (nullable_cases (Block.image block)) as [Hnone | [image Himg]].
  - rewrite (imageTransformer_sourceless block (or_introl Hnone)).
    left. split; [reflexivity | now left].
  - destruct (nullable_cases (selected_source image)) as [Hnone | [f Hsel]].
    + rewrite (imageTransformer_sourceless block).
      * left. split; [reflexivity|]. right. eauto.
      * right. eauto.
    + rewrite (imageTransformer_of_url block image f Himg Hsel).
      destruct (encodeURIComponent_cases (to_string (FileObject.url f)))
        as [[Hwf [E HE]] | [Hwf HE]]; rewrite HE.
      * exists image, f, E. auto.
      * right. split; [reflexivity|]. exists image, f. auto.
Qed.

(** X5: a payload whose selected object is there but carries no [url] is
    not rejected: the transformer returns the proxy reference of the text
    [undefined] (of [null] when the [url] is [null]). *)
Theorem imageTransformer_missing_url
    (block : Block.t) (image : Image.t) (f : FileObject.t) :
  Block.image block = Has image ->
  selected_source image = Has f ->
  nullish (FileObject.url f) ->
  imageTransformer block =
  Ok (proxy_reference
        (match FileObject.url f with
         | Null => js "null"
         | _ => js "undefined"
         end)
        (Block.id block)).
Proof.
  intros Himg Hsel Hurl.
  rewrite (imageTransformer_of_url block image f Himg Hsel).
  destruct Hurl as [-> | ->]; reflexivity.
Qed.

Lemma imageTransformer_missing_url_witness :
  imageTransformer sample_urlless_block =
  Ok (proxy_reference (js "undefined") (Block.id sample_urlless_block)).
Proof.
  apply (imageTransformer_missing_url sample_urlless_block
           (Image.mk (Has (js "file")) (Has (FileObject.mk Undefined))
              Undefined)
           (FileObject.mk Undefined)).
  - reflexivity.
  - reflexivity.
  - left. reflexivity.
Defined.

(** X6: every type tag other than ["file"], a missing tag included, makes
    the transformer read [external]: with an external URL it returns the
    proxy reference of that URL, whatever the [file] object holds. *)
Theorem imageTransformer_other_tag_reads_external
    (block : Block.t) (image : Image.t) (f : FileObject.t)
    (u E : jsstring) :
  Block.image block = Has image ->
  Image.type image <> Has (js "file") ->
  Image.external image = Has f ->
  FileObject.url f = Has u ->
  encodeURIComponent u = Ok E ->
  imageTransformer block = Ok (proxy_reference E (Block.id block)).
Proof.
  intros Himg Hty Hext Hurl HE.
  assert (selected_source image = Has f) as Hsel.
  { unfold selected_source, is_file.
    destruct (Image.type image) as [| |t]; try exact Hext.
    case_bool_decide; [congruence | exact Hext]. }
  rewrite (imageTransformer_of_url block image f Himg Hsel), Hurl.
  cbn [to_string]. now rewrite HE.
Qed.

Lemma imageTransformer_other_tag_reads_external_witness :
  imageTransformer sample_untagged_block =
  Ok (proxy_reference (js "https%3A%2F%2Fe.x%2Fa")
        (Block.id sample_untagged_block)).
Proof.
  apply (imageTransformer_other_tag_reads_external sample_untagged_block
           (Image.mk Undefined
              (Has (FileObject.mk (Has (js "https://ignored"))))
              (Has (FileObject.mk (Has (js "https://e.x/a")))))
           (FileObject.mk (Has (js "https://e.x/a")))
           (js "https://e.x/a") (js "https%3A%2F%2Fe.x%2Fa")).
  - reflexivity.
  - discriminate.
  - reflexivity.
  - reflexivity.
  - reflexivity.
Defined.

Lemma lor_octet (a b : Z) :
  0 <= a < 256 -> 0 <= b < 256 -> 0 <= Z.lor a b < 256.
Proof.
  intros Ha Hb. split; [apply Z.lor_nonneg; lia|].
  destruct (Z.eq_dec (Z.lor a b) 0) as [-> | Hne]; [lia|].
  assert (0 < Z.lor a b) as Hpos.
  { assert (0 <= Z.lor a b) by (apply Z.lor_nonneg; lia). lia. }
  change 256 with (2 ^ 8). apply Z.log2_lt_pow2; [exact Hpos|].
  rewrite Z.log2_lor by lia.
  assert (forall x, 0 <= x < 256 -> Z.log2 x < 8) as Hlog.
  { intros x Hx. destruct (Z.eq_dec x 0) as [-> | Hx0]; [reflexivity|].
    apply Z.log2_lt_pow2; [lia|]. change (2 ^ 8) with 256. lia. }
  pose proof (Hlog a Ha). pose proof (Hlog b Hb). lia.
Qed.

Lemma land_63 (x : Z) : 0 <= Z.land x 63 < 64.
Proof.
  change 63 with (Z.ones 6). rewrite Z.land_ones by lia.
  apply Z.mod_pos_bound. reflexivity.
Qed.

Lemma land_15 (x : Z) : 0 <= Z.land x 15 < 16.
Proof.
  change 15 with (Z.ones 4). rewrite Z.land_ones by lia.
  apply Z.mod_pos_bound. reflexivity.
Qed.

Lemma shiftr_range (x k m : Z) :
  0 <= k -> 0 <= x < m * 2 ^ k -> 0 <= Z.shiftr x k < m.
Proof.
  intros Hk Hx. rewrite Z.shiftr_div_pow2 by exact Hk.
  assert (0 < 2 ^ k) by (apply Z.pow_pos_nonneg; lia).
  split; [apply Z.div_pos; lia|].
  apply Z.div_lt_upper_bound; lia.
Qed.

(** The UTF-8 octets of a code point are octets. *)
Lemma utf8_octets (cp : Z) :
  0 <= cp < 1114112 -> Forall (fun o => 0 <= o < 256) (utf8 cp).
Proof.
  intros Hcp. unfold utf8.
  pose proof (land_63 cp). pose proof (land_63 (Z.shiftr cp 6)).
  pose proof (land_63 (Z.shiftr cp 12)).
  destruct (Z.ltb_spec cp 128); [repeat constructor; lia|].
  destruct (Z.ltb_spec cp 2048).
  { pose proof (shiftr_range cp 6 32 ltac:(lia) ltac:(simpl; lia)).
    repeat constructor; try (apply lor_octet; lia). }
  destruct (Z.ltb_spec cp 65536).
  { pose proof (shiftr_range cp 12 16 ltac:(lia) ltac:(simpl; lia)).
    repeat constructor; try (apply lor_octet; lia). }
  pose proof (shiftr_range cp 18 5 ltac:(lia) ltac:(simpl; lia)).
  repeat constructor; try (apply lor_octet; lia).
Qed.

Lemma hex_digit_unescaped (n : Z) :
  0 <= n < 16 -> uriUnescaped (hex_digit n) = true.
Proof.
  intros Hn. unfold hex_digit, uriUnescaped.
  destruct (Z.ltb_spec n 10) as [Hdigit | Hletter].
  - assert ((48 <=? 48 + n) && (48 + n <=? 57) = true) as ->
      by (apply andb_true_intro; split; apply Z.leb_le; lia).
    now rewrite orb_true_r.
  - assert ((65 <=? 55 + n) && (55 + n <=? 90) = true) as ->
      by (apply andb_true_intro; split; apply Z.leb_le; lia).
    reflexivity.
Qed.

Lemma percent_all_safe (octets : list Z) :
  Forall (fun o => 0 <= o < 256) octets ->
  Forall uri_safe (percent_all octets).
Proof.
  induction 1 as [|o octets Ho _ IH]; [constructor|].
  unfold percent_all. simpl. fold (percent_all octets).
  constructor; [now right|].
  constructor.
  { left. apply hex_digit_unescaped.
    apply (shiftr_range o 4 16); [lia | simpl; lia]. }
  constructor; [|exact IH].
  left. apply hex_digit_unescaped, land_15.
Qed.

Lemma pair_code_point_range (lead trail : Z) :
  is_lead_surrogate lead = true -> is_trail_surrogate trail = true ->
  0 <= pair_code_point lead trail < 1114112.
Proof.
  unfold is_lead_surrogate, is_trail_surrogate, pair_code_point.
  rewrite !andb_true_iff, !Z.leb_le. lia.
Qed.

(** The encoding of a text is written with unescaped code units and
    percent signs only. *)
Lemma encodeURIComponent_safe (s E : jsstring) :
  Forall code_unit s -> encodeURIComponent s = Ok E -> Forall uri_safe E.
Proof.
  revert E. induction s as [|c rest IH IH2] using jsstring_pair_ind;
    intros E Hs HE.
  - injection HE as <-. constructor.
  - apply Forall_cons in Hs as [Hc Hrest]. unfold code_unit in Hc.
    simpl in HE. destruct (uriUnescaped c) eqn:Hu.
    + destruct (encodeURIComponent rest) as [r|]; [|discriminate].
      injection HE as <-. constructor; [now left | now apply IH].
    + destruct (is_trail_surrogate c) eqn:Ht; [discriminate|].
      destruct (is_lead_surrogate c) eqn:Hl.
      * destruct rest as [|d rest']; [discriminate|].
        destruct (is_trail_surrogate d) eqn:Hd; [|discriminate].
        destruct (encodeURIComponent rest') as [r|] eqn:Hr; [|discriminate].
        injection HE as <-. apply Forall_app. split.
        -- apply percent_all_safe, utf8_octets.
           now apply pair_code_point_range.
        -- apply (IH2 d rest' eq_refl); [|exact Hr].
           now apply Forall_cons in Hrest as [_ ?].
      * destruct (encodeURIComponent rest) as [r|]; [|discriminate].
        injection HE as <-. apply Forall_app. split.
        -- apply percent_all_safe, utf8_octets. lia.
        -- now apply IH.
Qed.

Lemma code_unit_js (s : string) : Forall code_unit (js s).
Proof.
  unfold js. apply Forall_forall. intros c Hc.
  apply list_elem_of_In, List.in_map_iff in Hc as (a & <- & _).
  unfold code_unit. pose proof (N_ascii_bounded a). lia.
Qed.

(** X7: the URL appears in the reference in encoded form only. When the
    text of the URL is made of code units, the returned reference is the
    fixed prefix, an encoded part and the fixed query with the identifier
    of the block, and the encoded part holds unescaped code units and
    percent signs only: no space, double quote, [#], [&], [/], [=] or
    [?] of the URL reaches the reference. *)
Theorem imageTransformer_encoded_part
    (block : Block.t) (image : Image.t) (f : FileObject.t)
    (text : jsstring) :
  Block.image block = Has image ->
  selected_source image = Has f ->
  Forall code_unit (to_string (FileObject.url f)) ->
  imageTransformer block = Ok text ->
  exists E,
    text = js "![image](https://www.notion.so/image/" ++ E ++
           js "?table=block&id=" ++ Block.id block ++ js "&cache=v2)" /\
    Forall uri_safe E /\
    (forall c, In c [32; 34; 35; 38; 47; 61; 63] -> ~ In c E).
Proof.
  intros Himg Hsel Hunits.
  rewrite (imageTransformer_of_url block image f Himg Hsel).
  destruct (encodeURIComponent _) as [E|] eqn:HE; [|discriminate].
  intros [= <-]. exists E. split; [reflexivity|].
  pose proof (encodeURIComponent_safe _ E Hunits HE) as Hsafe.
  split; [exact Hsafe|].
  intros c Hc Hin. rewrite Forall_forall in Hsafe.
  apply list_elem_of_In, Hsafe in Hin.
  simpl in Hc. unfold uri_safe in Hin.
  repeat (destruct Hc as [<- | Hc]; [destruct Hin; discriminate|]).
  exact Hc.
Qed.

Lemma imageTransformer_encoded_part_witness :
  exists E,
    js "![image](https://www.notion.so/image/" ++
    js "https%3A%2F%2Fs3.aws.com%2Fa%20b.png%3FX%3D1" ++
    js "?table=block&id=" ++ Block.id sample_hosted_block ++
    js "&cache=v2)" =
    js "![image](https://www.notion.so/image/" ++ E ++
    js "?table=block&id=" ++ Block.id sample_hosted_block ++
    js "&cache=v2)" /\
    Forall uri_safe E /\
    (forall c, In c [32; 34; 35; 38; 47; 61; 63] -> ~ In c E).
Proof.
  apply (imageTransformer_encoded_part sample_hosted_block
           (Image.mk (Has (js "file"))
              (Has (FileObject.mk (Has (js "https://s3.aws.com/a b.png?X=1"))))
              Undefined)
           (FileObject.mk (Has (js "https://s3.aws.com/a b.png?X=1")))).
  - reflexivity.
  - reflexivity.
  - apply code_unit_js.
  - reflexivity.
Defined.

(** ** Property extraction *)

Lemma frontmatter_layout (today : jsstring) (page : Page.t) :
  frontmatter today page =
  js "---" ++ newline ++ header_fields today page ++
  js "math: true" ++ newline ++ imageFrontmatter page ++
  js "---" ++ newline ++ newline.
Proof.
  unfold frontmatter, header_fields. rewrite <- !app_assoc. reflexivity.
Qed.

Lemma or_else_text (o : nullable jsstring) (s d : jsstring) :
  o = Has s -> s <> [] -> or_else o d = s.
Proof. intros -> Hs. destruct s; [congruence | reflexivity]. Qed.

Lemma first_plain_text_text (p : RichTextProperty.t) (s : jsstring) :
  first_text (RichTextProperty.rich_text p) s ->
  first_plain_text (Has p) = Has s.
Proof.
  intros (r & rest & Hitems & Hr & _). unfold first_plain_text.
  cbn [chain]. rewrite Hitems. cbn [first chain]. exact Hr.
Qed.

Lemma first_text_non_empty (items : nullable (list RichText.t))
    (s : jsstring) :
  first_text items s -> s <> [].
Proof. now intros (r & rest & _ & _ & Hs). Qed.

(** X8: a value that is there and not empty is used as it is. The first
    run of the title, of the slug and of the description, the name of the
    category and the start of the date are copied to the header fields
    without change; with a slug the identifier of the record is not used,
    and with a date the clock is not. *)
Theorem present_values_used_verbatim (page : Page.t) (today : jsstring) :
  (forall p s, present page Properties.title p ->
               first_text (TitleProperty.title p) s ->
               title page = s) /\
  (forall p s, present page Properties.page_id p ->
               first_text (RichTextProperty.rich_text p) s ->
               pageId page = s) /\
  (forall p s, present page Properties.description p ->
               first_text (RichTextProperty.rich_text p) s ->
               description page = s) /\
  (forall p o s, present page Properties.category p ->
                 SelectProperty.select p = Has o ->
                 SelectOption.name o = Has s -> s <> [] ->
                 category page = s) /\
  (forall p d s, present page Properties.date p ->
                 DateProperty.date p = Has d ->
                 DateValue.start d = Has s -> s <> [] ->
                 date today page = s).
Proof.
  split; [|split; [|split; [|split]]].
  - intros p s Hp (r & rest & Hitems & Hr & Hs). unfold title, title_text.
    rewrite (present_chain _ _ _ Hp). cbn [chain]. rewrite Hitems.
    cbn [first chain]. now apply or_else_text.
  - intros p s Hp Htext. unfold pageId, page_id_text.
    rewrite (present_chain _ _ _ Hp).
    apply or_else_text; [now apply first_plain_text_text|].
    exact (first_text_non_empty _ _ Htext).
  - intros p s Hp Htext. unfold description, description_text.
    rewrite (present_chain _ _ _ Hp).
    apply or_else_text; [now apply first_plain_text_text|].
    exact (first_text_non_empty _ _ Htext).
  - intros p o s Hp Hsel Hname Hs. unfold category, category_name.
    rewrite (present_chain _ _ _ Hp). cbn [chain]. rewrite Hsel.
    cbn [chain]. now apply or_else_text.
  - intros p d s Hp Hd Hstart Hs. unfold date, date_start.
    rewrite (present_chain _ _ _ Hp). cbn [chain]. rewrite Hd.
    cbn [chain]. now apply or_else_text.
Qed.

Lemma present_values_used_verbatim_witness :
  title sample_page_full = js "Hello" /\
  pageId sample_page_full = js "hello-post" /\
  date (js "2024-05-06") sample_page_full = js "2024-01-02".
Proof.
  destruct (present_values_used_verbatim sample_page_full (js "2024-05-06"))
    as (Htitle & Hslug & _ & _ & Hdate).
  split; [|split].
  - eapply Htitle; [eexists; split; reflexivity|].
    eexists _, _. split; [reflexivity|]. split; [reflexivity | discriminate].
  - eapply Hslug; [eexists; split; reflexivity|].
    eexists _, _. split; [reflexivity|]. split; [reflexivity | discriminate].
  - eapply Hdate; [eexists; split; reflexivity| | |];
      [reflexivity | reflexivity | discriminate].
Defined.

(** X9: the image block of the header follows the thumbnail. Without a
    thumbnail, or with an empty one, the header has no image block: the
    closing marker comes right after the math flag. With a thumbnail text
    the block is the three lines [image:], [path:] with the text between
    double quotes, and [alt:] with the fixed text [preview image]. *)
Theorem thumbnail_decides_image_block (page : Page.t) (today : jsstring) :
  (absent page Properties.thumbnail_url \/
   (exists p, present page Properties.thumbnail_url p /\
              empty_text (RichTextProperty.rich_text p)) ->
   imageFrontmatter page = [] /\
   frontmatter today page =
   js "---" ++ newline ++ header_fields today page ++
   js "math: true" ++ newline ++ js "---" ++ newline ++ newline) /\
  (forall p s,
      present page Properties.thumbnail_url p ->
      first_text (RichTextProperty.rich_text p) s ->
      imageFrontmatter page =
      js "image:" ++ newline ++
      js "  path: " ++ quoted s ++ newline ++
      js "  alt: " ++ quoted (js "preview image") ++ newline).
Proof.
  split.
  - intros Hnone.
    assert (truthy (thumbnailUrl page) = false) as Hfalsy.
    { unfold thumbnailUrl. destruct Hnone as [Habs | (p & Hp & Hempty)].
      - now rewrite (first_plain_text_nullish _ Habs).
      - rewrite (present_chain _ _ _ Hp).
        now apply first_plain_text_empty. }
    assert (imageFrontmatter page = []) as Himage.
    { unfold imageFrontmatter. now rewrite Hfalsy. }
    split; [exact Himage|]. rewrite frontmatter_layout, Himage. reflexivity.
  - intros p s Hp Htext. unfold imageFrontmatter, thumbnailUrl.
    rewrite (present_chain _ _ _ Hp), (first_plain_text_text p s Htext).
    pose proof (first_text_non_empty _ _ Htext) as Hs.
    destruct s as [|c s]; [congruence|]. cbn [truthy to_string].
    unfold quoted. rewrite <- !app_assoc. reflexivity.
Qed.

Lemma join_quoted (names : list (nullable jsstring)) :
  names <> [] ->
  dquote ++ join (dquote ++ js ", " ++ dquote) names ++ dquote =
  join (js ", ") (List.map (fun n => Has (quoted (join_element n))) names).
Proof.
  induction names as [|x names IH]; [congruence|]. intros _.
  destruct names as [|y names]; [reflexivity|].
  change (join (dquote ++ js ", " ++ dquote) (x :: y :: names))
    with (join_element x ++ (dquote ++ js ", " ++ dquote) ++
          join (dquote ++ js ", " ++ dquote) (y :: names)).
  change (join (js ", ")
            (List.map (fun n => Has (quoted (join_element n)))
               (x :: y :: names)))
    with (quoted (join_element x) ++ js ", " ++
          join (js ", ")
            (List.map (fun n => Has (quoted (join_element n)))
               (y :: names))).
  rewrite <- IH by discriminate. unfold quoted.
  rewrite <- !app_assoc. reflexivity.
Qed.

(** X10: the tags line lists the names of the selected options, each
    between double quotes, separated by a comma and a space, in the order
    of the property; a selection that is there but empty gives the same
    line as an absent one, with one empty quoted text. *)
Theorem tags_line_lists_quoted_names
    (page : Page.t) (today : jsstring) (options : list SelectOption.t) :
  multi_select_of page = Has options ->
  exists before after,
    frontmatter today page =
    before ++ js "tags: [" ++
    match options with
    | [] => quoted []
    | _ :: _ =>
        join (js ", ")
          (List.map
             (fun o => Has (quoted (join_element (SelectOption.name o))))
             options)
    end ++ js "]" ++ newline ++ after.
Proof.
  intros Hsel.
  exists (js "---" ++ newline ++
          js "title: " ++ dquote ++ title page ++ dquote ++ newline ++
          js "date: " ++ date today page ++ newline ++
          js "categories: [" ++ dquote ++ category page ++ dquote ++
          js "]" ++ newline),
         (js "description: " ++ dquote ++ description page ++ dquote ++
          newline ++
          js "permalink: /posts/" ++ pageId page ++ newline ++
          js "math: true" ++ newline ++
          imageFrontmatter page ++ js "---" ++ newline ++ newline).
  assert (dquote ++ join (dquote ++ js ", " ++ dquote) (tags page) ++ dquote =
          match options with
          | [] => quoted []
          | _ :: _ =>
              join (js ", ")
                (List.map
                   (fun o =>
                      Has (quoted (join_element (SelectOption.name o))))
                   options)
          end) as Hline.
  { unfold tags. rewrite Hsel. destruct options as [|o options].
    - reflexivity.
    - rewrite join_quoted by discriminate. now rewrite List.map_map. }
  rewrite <- Hline. unfold frontmatter. rewrite <- !app_assoc. reflexivity.
Qed.

Lemma tags_line_lists_quoted_names_witness :
  exists before after,
    frontmatter (js "2024-05-06") sample_page_full =
    before ++ js "tags: [" ++
    join (js ", ")
      (List.map
         (fun o => Has (quoted (join_element (SelectOption.name o))))
         [SelectOption.mk (Has (js "a")); SelectOption.mk (Has (js "b"))]) ++
    js "]" ++ newline ++ after.
Proof.
  apply (tags_line_lists_quoted_names sample_page_full (js "2024-05-06")
           [SelectOption.mk (Has (js "a")); SelectOption.mk (Has (js "b"))]).
  reflexivity.
Defined.

(** ** The run *)

Lemma fetched_ids_app (tr1 tr2 : list event) :
  fetched_ids (tr1 ++ tr2) = fetched_ids tr1 ++ fetched_ids tr2.
Proof.
  induction tr1 as [|e tr1 IH]; [reflexivity|].
  destruct e; simpl; now rewrite IH.
Qed.

Section RunProperties.

Variable process_env : jsstring -> nullable jsstring.
Variable databases_query : jsstring -> result (list Page.t).
Variable pageToMarkdown :
  (Block.t -> result jsstring) -> jsstring -> result (list MdBlock).
Variable toMarkdownString : list MdBlock -> MdStringObject.t.
Variable moment_format : list event -> jsstring.
Variable path_join : jsstring -> jsstring -> jsstring.
Variable mkdirSync_error : list event -> jsstring -> option error.
Variable writeFileSync_error :
  list event -> jsstring -> jsstring -> option error.

Local Abbreviation processPage_ :=
  (processPage pageToMarkdown toMarkdownString moment_format path_join
     writeFileSync_error).
Local Abbreviation main_ :=
  (main process_env databases_query pageToMarkdown toMarkdownString
     moment_format path_join mkdirSync_error writeFileSync_error).
Local Abbreviation run_ :=
  (run process_env databases_query pageToMarkdown toMarkdownString
     moment_format path_join mkdirSync_error writeFileSync_error).
Local Abbreviation record_events_ :=
  (record_events toMarkdownString moment_format path_join).
Local Abbreviation database_id_ :=
  (to_string (process_env (js "DATABASE_ID"))).

(** The loop body ends in one of two ways: the three events of a processed
    record, or the fetch alone and an error. *)
Lemma processPage_cases (folder : jsstring) (page : Page.t)
    (tr : list event) :
  (exists blocks,
      pageToMarkdown imageTransformer (Page.id page) = Ok blocks /\
      processPage_ folder page tr =
      (tr ++ record_events_ folder page tr blocks, Ok tt)) \/
  (exists e,
      processPage_ folder page tr =
      (tr ++ [PageToMarkdown (Page.id page)], Throw e)).
Proof.
  destruct (pageToMarkdown imageTransformer (Page.id page))
    as [blocks|e] eqn:Hmd.
  - destruct (writeFileSync_error (tr ++ [PageToMarkdown (Page.id page)])
                (path_join folder (filename (moment_format tr) page))
                (frontmatter (moment_format tr) page ++
                 to_string (MdStringObject.parent
                              (toMarkdownString (shiftHeadings blocks)))))
      as [e|] eqn:Hw.
    + right. exists e.
      unfold processPage, writeFileSync, mbind, IO_bind, history, emit,
        lift, throw.
      now rewrite Hmd, Hw.
    + left. exists blocks. split; [reflexivity|].
      now apply processPage_ok.
  - right. exists e. now apply processPage_conversion_error.
Qed.

Lemma for_of_step {A : Type} (body : A -> IO unit) (x : A) (rest : list A)
    (tr tr' : list event) :
  body x tr = (tr', Ok tt) ->
  for_of (x :: rest) body tr = for_of rest body tr'.
Proof. intros H. simpl. unfold mbind, IO_bind. now rewrite H. Qed.

Lemma for_of_stop {A : Type} (body : A -> IO unit) (x : A) (rest : list A)
    (tr tr' : list event) (e : error) :
  body x tr = (tr', Throw e) ->
  for_of (x :: rest) body tr = (tr', Throw e).
Proof. intros H. simpl. unfold mbind, IO_bind. now rewrite H. Qed.

(** What the loop adds to the trace: the records it has seen are a prefix
    of the list, each seen record was fetched, each but possibly the last
    was written, and every write is the file of a seen record. *)
Lemma loop_invariants (folder : jsstring) (results : list Page.t)
    (tr : list event) :
  exists added r seen rest,
    for_of results (processPage_ folder) tr = (tr ++ added, r) /\
    results = seen ++ rest /\
    fetched_ids added = List.map Page.id seen /\
    match r with
    | Ok _ =>
        rest = [] /\
        List.length (List.filter is_write added) = List.length seen
    | Throw _ =>
        List.length seen = S (List.length (List.filter is_write added))
    end /\
    existsb is_console_error added = false /\
    existsb is_query added = false /\
    existsb is_mkdir added = false /\
    (forall p d,
        In (WriteFileSync p d) added ->
        exists page tr' blocks,
          In page seen /\
          pageToMarkdown imageTransformer (Page.id page) = Ok blocks /\
          p = path_join folder (filename (moment_format tr') page) /\
          d = frontmatter (moment_format tr') page ++
              to_string (MdStringObject.parent
                           (toMarkdownString (shiftHeadings blocks)))).
Proof.
  revert tr. induction results as [|page results IH]; intros tr.
  - exists [], (Ok tt), [], []. rewrite app_nil_r.
    repeat split; try reflexivity. intros p d [].
  - destruct (processPage_cases folder page tr)
      as [(blocks & Hmd & Hok) | (e & Hstop)].
    + rewrite (for_of_step _ _ _ _ _ Hok).
      destruct (IH (tr ++ record_events_ folder page tr blocks))
        as (added & r & seen & rest & Hrun & Hres & Hfetch & Hcount &
            Herr & Hq & Hmk & Hwrites).
      exists (record_events_ folder page tr blocks ++ added), r,
             (page :: seen), rest.
      rewrite Hrun, <- app_assoc. split; [reflexivity|].
      split; [now rewrite Hres|].
      split; [simpl; now rewrite Hfetch|].
      split.
      { destruct r; simpl; [|lia].
        destruct Hcount as [-> ->]. split; reflexivity. }
      split; [exact Herr|]. split; [exact Hq|]. split; [exact Hmk|].
      intros p d [Hin | [[= <- <-] | [Hin | Hin]]]; try discriminate.
      * exists page, tr, blocks. repeat split; [now left | exact Hmd].
      * destruct (Hwrites p d Hin) as (pg & tr' & bs & Hpg & H1 & H2 & H3).
        exists pg, tr', bs. repeat split; [now right | assumption..].
    + rewrite (for_of_stop _ _ _ _ _ _ Hstop).
      exists [PageToMarkdown (Page.id page)], (Throw e), [page], results.
      repeat split; try reflexivity.
      intros p d [Hin | []]. discriminate.
Qed.

(** The five ways in which the body of the script proceeds. *)
Lemma main_cases :
  (exists name,
      missing process_env name /\
      main_ [] =
      ([], Throw (Error (js "Missing required environment variable: " ++
                         name)))) \/
  (exists e,
      databases_query database_id_ = Throw e /\
      main_ [] = ([DatabasesQuery database_id_], Throw e)) \/
  (exists results e,
      databases_query database_id_ = Ok results /\
      main_ [] =
      ([ DatabasesQuery database_id_;
         ConsoleLog (js "Converting " ++ decimal (List.length results) ++
                     js " post(s)...") ], Throw e)) \/
  (exists results,
      databases_query database_id_ = Ok results /\
      main_ [] =
      for_of results (processPage_ (js "_posts"))
        (prologue database_id_ (List.length results))).
Proof.
  destruct (truthy (process_env (js "DATABASE_ID"))) eqn:Hdb.
  2:{ left. exists (js "DATABASE_ID"). split; [exact Hdb|].
      unfold main. now rewrite Hdb. }
  destruct (truthy (process_env (js "NOTION_TOKEN"))) eqn:Htok.
  2:{ left. exists (js "NOTION_TOKEN"). split; [exact Htok|].
      unfold main. now rewrite Hdb, Htok. }
  right.
  destruct (databases_query database_id_) as [results|e] eqn:Hq.
  2:{ left. exists e. split; [reflexivity|].
      unfold main. rewrite Hdb, Htok. cbn [negb].
      unfold mbind, IO_bind, emit, lift. cbn [app]. now rewrite Hq. }
  right.
  destruct (mkdirSync_error
              [ DatabasesQuery database_id_;
                ConsoleLog (js "Converting " ++
                            decimal (List.length results) ++
                            js " post(s)...") ]
              (js "_posts")) as [e|] eqn:Hmk.
  - left. exists results, e. split; [reflexivity|].
    unfold main. rewrite Hdb, Htok. cbn [negb].
    unfold mkdirSync, mbind, IO_bind, history, emit, lift, throw.
    cbn [app]. now rewrite Hq, Hmk.
  - right. exists results. split; [reflexivity|].
    now apply main_reaches_loop.
Qed.

(** Closes a goal about a trace that is given in full and holds no event
    of the kind in question. *)
Ltac short_trace :=
  first
    [ reflexivity
    | simpl; lia
    | now left
    | intros; simpl in *;
      repeat match goal with
             | H : _ \/ _ |- _ => destruct H
             | H : False |- _ => destruct H
             end;
      discriminate ].

(** What holds of the trace of the body of the script in every world. *)
Lemma main_invariants :
  exists tr r seen,
    main_ [] = (tr, r) /\
    existsb is_console_error tr = false /\
    (List.length (List.filter is_query tr) <= 1)%nat /\
    (List.length (List.filter is_mkdir tr) <= 1)%nat /\
    (forall p, In (MkdirSync p) tr -> p = js "_posts") /\
    fetched_ids tr = List.map Page.id seen /\
    (seen = [] \/
     exists results rest,
       databases_query database_id_ = Ok results /\
       results = seen ++ rest) /\
    (List.length (List.filter is_write tr) <= List.length seen
     <= S (List.length (List.filter is_write tr)))%nat /\
    (forall u, r = Ok u ->
       truthy (process_env (js "DATABASE_ID")) = true /\
       truthy (process_env (js "NOTION_TOKEN")) = true /\
       databases_query database_id_ = Ok seen /\
       List.length (List.filter is_write tr) = List.length seen) /\
    (forall p d,
        In (WriteFileSync p d) tr ->
        exists results page tr' blocks,
          databases_query database_id_ = Ok results /\
          In page results /\
          pageToMarkdown imageTransformer (Page.id page) = Ok blocks /\
          p = path_join (js "_posts") (filename (moment_format tr') page) /\
          d = frontmatter (moment_format tr') page ++
              to_string (MdStringObject.parent
                           (toMarkdownString (shiftHeadings blocks)))).
Proof.
  destruct main_cases
    as [(name & _ & Hmain) | [(e & _ & Hmain) |
        [(results & e & _ & Hmain) | (results & Hq & Hmain)]]].
  - eexists [], _, []. split; [exact Hmain|].
    repeat (split; [solve [short_trace]|]). short_trace.
  - eexists _, _, []. split; [exact Hmain|].
    repeat (split; [solve [short_trace]|]). short_trace.
  - eexists _, _, []. split; [exact Hmain|].
    repeat (split; [solve [short_trace]|]). short_trace.
  - destruct (loop_invariants (js "_posts") results
                (prologue database_id_ (List.length results)))
      as (added & r & seen & rest & Hrun & Hres & Hfetch & Hcount &
          Herr & Hquery & Hmk & Hwrites).
    exists (prologue database_id_ (List.length results) ++ added), r, seen.
    split; [now rewrite Hmain|].
    split; [rewrite List.existsb_app, Herr; reflexivity|].
    assert (forall f : event -> bool,
               existsb f added = false -> List.filter f added = [])
      as Hnone.
    { intros f. clear. induction added as [|x l IH]; [reflexivity|].
      simpl. destruct (f x); [discriminate|]. exact IH. }
    split; [rewrite List.filter_app, (Hnone _ Hquery); simpl; lia|].
    split; [rewrite List.filter_app, (Hnone _ Hmk); simpl; lia|].
    split.
    { intros p Hin. apply List.in_app_or in Hin as [Hin | Hin].
      - destruct Hin as [Hin | [Hin | [[= <-] | []]]];
          [discriminate | discriminate | reflexivity].
      - exfalso. assert (In (MkdirSync p) (List.filter is_mkdir added))
          as Habs by (apply List.filter_In; now split).
        now rewrite (Hnone _ Hmk) in Habs. }
    split; [rewrite fetched_ids_app; exact Hfetch|].
    split; [right; exists results, rest; now split|].
    assert (List.filter is_write
              (prologue database_id_ (List.length results) ++ added) =
            List.filter is_write added) as Hw
      by (rewrite List.filter_app; reflexivity).
    rewrite Hw.
    split; [destruct r; [destruct Hcount as [_ ->]|]; lia|].
    split.
    { intros u ->. destruct Hcount as [-> Hlen].
      rewrite app_nil_r in Hres. subst seen.
      unfold main in Hmain.
      destruct (truthy (process_env (js "DATABASE_ID"))) eqn:Hdb.
      2:{ cbn [negb] in Hmain. unfold throw in Hmain.
          rewrite Hrun in Hmain. discriminate. }
      destruct (truthy (process_env (js "NOTION_TOKEN"))) eqn:Htok.
      2:{ cbn [negb] in Hmain. unfold throw in Hmain.
          rewrite Hrun in Hmain. discriminate. }
      repeat split; assumption. }
    intros p d Hin. apply List.in_app_or in Hin as [Hin | Hin].
    + destruct Hin as [Hin | [Hin | [Hin | []]]]; discriminate.
    + destruct (Hwrites p d Hin) as (page & tr' & blocks & Hpg & H1 & H2 & H3).
      exists results, page, tr', blocks. repeat split; try assumption.
      rewrite Hres. apply List.in_or_app. now left.
Qed.

Lemma run_of_main (tr : list event) (r : result unit) :
  main_ [] = (tr, r) ->
  run_ =
  match r with
  | Ok _ => (tr, 0)
  | Throw e => (tr ++ [ConsoleError (js "Export failed:") e], 1)
  end.
Proof. intros H. unfold run. rewrite H. now destruct r. Qed.

Lemma filter_snoc_false {A : Type} (f : A -> bool) (l : list A) (x : A) :
  f x = false -> List.filter f (l ++ [x]) = List.filter f l.
Proof.
  intros H. rewrite List.filter_app. simpl. rewrite H. apply app_nil_r.
Qed.

(** X11: the exit code tells whether an error was printed. Either the exit
    code is 0 and the trace holds no error line, or it is 1 and the trace
    ends with exactly one error line, labelled [Export failed:], that
    carries the error which stopped the script. *)
Theorem run_exit_code_and_error_line :
  (snd run_ = 0 /\ existsb is_console_error (fst run_) = false) \/
  (snd run_ = 1 /\
   exists tr e,
     main_ [] = (tr, Throw e) /\
     fst run_ = tr ++ [ConsoleError (js "Export failed:") e] /\
     existsb is_console_error tr = false).
Proof.
  destruct main_invariants as (tr & r & seen & Hmain & Herr & _).
  rewrite (run_of_main tr r Hmain). destruct r as [u|e].
  - left. split; [reflexivity | exact Herr].
  - right. split; [reflexivity|]. exists tr, e.
    split; [exact Hmain|]. split; [reflexivity | exact Herr].
Qed.


(** X13: in every world the run issues at most one query, creates no
    directory but [_posts] and that at most once, fetches the records of
    the query result in their order without skipping any, and has written
    one file for each fetched record, except for the last fetched one when
    the run stopped there. *)
Theorem run_effects_are_bounded :
  (List.length (List.filter is_query (fst run_)) <= 1)%nat /\
  (List.length (List.filter is_mkdir (fst run_)) <= 1)%nat /\
  (forall p, In (MkdirSync p) (fst run_) -> p = js "_posts") /\
  exists seen,
    fetched_ids (fst run_) = List.map Page.id seen /\
    (seen = [] \/
     exists results rest,
       databases_query database_id_ = Ok results /\
       results = seen ++ rest) /\
    (List.length (List.filter is_write (fst run_)) <= List.length seen
     <= S (List.length (List.filter is_write (fst run_))))%nat.
Proof.
  destruct main_invariants
    as (tr & r & seen & Hmain & _ & Hq & Hmk & Hdir & Hfetch & Hseen &
        Hcount & _).
  rewrite (run_of_main tr r Hmain). destruct r as [u|e]; cbn [fst].
  - repeat split; try assumption. exists seen. repeat split; tauto || lia.
  - rewrite !filter_snoc_false by reflexivity.
    rewrite fetched_ids_app, app_nil_r.
    repeat split; try assumption.
    + intros p Hin. apply List.in_app_or in Hin as [Hin | [Hin | []]];
        [now apply Hdir | discriminate].
    + exists seen. repeat split; tauto || lia.
Qed.

(** X14: the exit code 0 is given only to a complete export: both
    variables were set, the query answered, and every record of its result
    was fetched, in order, and written. *)
Theorem run_exit_0_is_complete :
  snd run_ = 0 ->
  truthy (process_env (js "DATABASE_ID")) = true /\
  truthy (process_env (js "NOTION_TOKEN")) = true /\
  exists results,
    databases_query database_id_ = Ok results /\
    fetched_ids (fst run_) = List.map Page.id results /\
    List.length (List.filter is_write (fst run_)) = List.length results.
Proof.
  destruct main_invariants
    as (tr & r & seen & Hmain & _ & _ & _ & _ & Hfetch & _ & _ & Hok & _).
  rewrite (run_of_main tr r Hmain). destruct r as [u|e]; [|discriminate].
  intros _. destruct (Hok u eq_refl) as (Hdb & Htok & Hq & Hlen).
  split; [exact Hdb|]. split; [exact Htok|].
  exists seen. repeat split; assumption.
Qed.

Lemma for_of_all_ok (folder : jsstring) (results : list Page.t)
    (tr : list event) :
  (forall page, In page results ->
     exists blocks,
       pageToMarkdown imageTransformer (Page.id page) = Ok blocks) ->
  (forall tr' p d, writeFileSync_error tr' p d = None) ->
  exists tr', for_of results (processPage_ folder) tr = (tr', Ok tt).
Proof.
  intros Hconv Hwrite. revert tr.
  induction results as [|page results IH]; intros tr; [now exists tr|].
  destruct (Hconv page (or_introl eq_refl)) as [blocks Hmd].
  rewrite (for_of_step _ _ _ _ _
             (processPage_ok _ _ _ _ _ folder page tr blocks Hmd
                (Hwrite _ _ _))).
  apply IH. intros pg Hpg. apply Hconv. now right.
Qed.

(** X15: when nothing fails the export is complete. With both variables
    set, a query that answers, a folder that can be created, records that
    all convert and writes that are all accepted, the run ends with exit
    code 0 after one fetch and one write per record, in the order of the
    query result. *)
Theorem run_completes_when_nothing_fails (results : list Page.t) :
  truthy (process_env (js "DATABASE_ID")) = true ->
  truthy (process_env (js "NOTION_TOKEN")) = true ->
  databases_query database_id_ = Ok results ->
  (forall tr p, mkdirSync_error tr p = None) ->
  (forall page, In page results ->
     exists blocks,
       pageToMarkdown imageTransformer (Page.id page) = Ok blocks) ->
  (forall tr p d, writeFileSync_error tr p d = None) ->
  snd run_ = 0 /\
  fetched_ids (fst run_) = List.map Page.id results /\
  List.length (List.filter is_write (fst run_)) = List.length results.
Proof.
  intros Hdb Htok Hq Hmk Hconv Hwrite.
  destruct (for_of_all_ok (js "_posts") results
              (prologue database_id_ (List.length results)) Hconv Hwrite)
    as [tr Hloop].
  assert (main_ [] = (tr, Ok tt)) as Hmain.
  { rewrite (main_reaches_loop _ _ _ _ _ _ _ _ results Hdb Htok Hq
               (Hmk _ _)).
    exact Hloop. }
  destruct main_invariants
    as (tr0 & r & seen & Hmain0 & _ & _ & _ & _ & Hfetch & _ & _ & Hok & _).
  rewrite Hmain in Hmain0. injection Hmain0 as <- <-.
  destruct (Hok tt eq_refl) as (_ & _ & Hq' & Hlen).
  rewrite Hq in Hq'. injection Hq' as <-.
  rewrite (run_of_main tr (Ok tt) Hmain). repeat split; assumption.
Qed.

(** X16: an empty query result is no error. The run still logs the count
    0 and creates the folder, fetches and writes nothing, and ends with
    exit code 0. *)
Theorem run_on_empty_result :
  truthy (process_env (js "DATABASE_ID")) = true ->
  truthy (process_env (js "NOTION_TOKEN")) = true ->
  databases_query database_id_ = Ok [] ->
  mkdirSync_error
    [ DatabasesQuery database_id_;
      ConsoleLog (js "Converting 0 post(s)...") ] (js "_posts") = None ->
  run_ =
  ([ DatabasesQuery database_id_;
     ConsoleLog (js "Converting 0 post(s)...");
     MkdirSync (js "_posts") ], 0).
Proof.
  intros Hdb Htok Hq Hmk.
  rewrite (run_of_main
             [ DatabasesQuery database_id_;
               ConsoleLog (js "Converting 0 post(s)...");
               MkdirSync (js "_posts") ] (Ok tt)); [reflexivity|].
  now rewrite (main_reaches_loop _ _ _ _ _ _ _ _ [] Hdb Htok Hq Hmk).
Qed.

(** X17: a failure before the loop stops the run before any record is
    fetched or written. When the query fails the trace holds the query and
    the error line; when the folder cannot be created it holds the query,
    the count line and the error line; the exit code is 1 in both
    cases. *)
Theorem run_fails_before_loop (e : error) :
  truthy (process_env (js "DATABASE_ID")) = true ->
  truthy (process_env (js "NOTION_TOKEN")) = true ->
  (databases_query database_id_ = Throw e ->
   run_ =
   ([ DatabasesQuery database_id_;
      ConsoleError (js "Export failed:") e ], 1)) /\
  (forall results,
      databases_query database_id_ = Ok results ->
      mkdirSync_error
        [ DatabasesQuery database_id_;
          ConsoleLog (js "Converting " ++ decimal (List.length results) ++
                      js " post(s)...") ] (js "_posts") = Some e ->
      run_ =
      ([ DatabasesQuery database_id_;
         ConsoleLog (js "Converting " ++ decimal (List.length results) ++
                     js " post(s)...");
         ConsoleError (js "Export failed:") e ], 1)).
Proof.
  intros Hdb Htok. split.
  - intros Hq. unfold run, main. rewrite Hdb, Htok. cbn [negb].
    unfold mbind, IO_bind, emit, lift. cbn [app]. now rewrite Hq.
  - intros results Hq Hmk. unfold run, main. rewrite Hdb, Htok. cbn [negb].
    unfold mkdirSync, mbind, IO_bind, history, emit, lift, throw.
    cbn [app]. now rewrite Hq, Hmk.
Qed.

(** X18: a write that fails stops the run at its record. The records
    before it keep their files, the record itself was fetched but has no
    file, no later record is fetched, and the run ends with exit code 1
    after printing the error of the write. *)
Theorem run_stops_at_failed_write
    (pre post : list Page.t) (page : Page.t) (tr1 : list event)
    (blocks : list MdBlock) (e : error) :
  truthy (process_env (js "DATABASE_ID")) = true ->
  truthy (process_env (js "NOTION_TOKEN")) = true ->
  databases_query database_id_ = Ok (pre ++ page :: post) ->
  mkdirSync_error
    [ DatabasesQuery database_id_;
      ConsoleLog (js "Converting " ++
                  decimal (List.length (pre ++ page :: post)) ++
                  js " post(s)...") ] (js "_posts") = None ->
  for_of pre (processPage_ (js "_posts"))
    (prologue database_id_ (List.length (pre ++ page :: post))) =
    (tr1, Ok tt) ->
  pageToMarkdown imageTransformer (Page.id page) = Ok blocks ->
  writeFileSync_error (tr1 ++ [PageToMarkdown (Page.id page)])
    (path_join (js "_posts") (filename (moment_format tr1) page))
    (frontmatter (moment_format tr1) page ++
     to_string (MdStringObject.parent
                  (toMarkdownString (shiftHeadings blocks)))) = Some e ->
  run_ =
  (tr1 ++ [ PageToMarkdown (Page.id page);
            ConsoleError (js "Export failed:") e ], 1).
Proof.
  intros Hdb Htok Hq Hmk Hpre Hmd Hw.
  rewrite (run_of_main (tr1 ++ [PageToMarkdown (Page.id page)]) (Throw e)).
  - now rewrite <- app_assoc.
  - rewrite (main_reaches_loop _ _ _ _ _ _ _ _ _ Hdb Htok Hq Hmk).
    apply (for_of_throw_at _ pre post page _ tr1); [exact Hpre|].
    unfold processPage, writeFileSync, mbind, IO_bind, history, emit,
      lift, throw.
    now rewrite Hmd, Hw.
Qed.

End RunProperties.

(** ** The further properties at sample inputs *)


Lemma run_exit_0_is_complete_witness :
  truthy (sample_env (js "DATABASE_ID")) = true /\
  truthy (sample_env (js "NOTION_TOKEN")) = true /\
  exists results,
    sample_query [sample_page_full]
      (to_string (sample_env (js "DATABASE_ID"))) = Ok results /\
    fetched_ids (fst (sample_run sample_env [sample_page_full])) =
    List.map Page.id results /\
    List.length
      (List.filter is_write (fst (sample_run sample_env [sample_page_full])))
    = List.length results.
Proof.
  apply (run_exit_0_is_complete sample_env
           (sample_query [sample_page_full]) sample_pageToMarkdown
           sample_toMarkdownString sample_moment sample_join
           sample_mkdir_ok sample_write_ok).
  reflexivity.
Defined.

Lemma run_completes_when_nothing_fails_witness :
  snd (run sample_env (sample_query [sample_page_full; sample_page_bare])
         sample_convert_all sample_toMarkdownString sample_moment
         sample_join sample_mkdir_ok sample_write_ok) = 0 /\
  fetched_ids
    (fst (run sample_env (sample_query [sample_page_full; sample_page_bare])
            sample_convert_all sample_toMarkdownString sample_moment
            sample_join sample_mkdir_ok sample_write_ok)) =
  List.map Page.id [sample_page_full; sample_page_bare] /\
  List.length
    (List.filter is_write
       (fst (run sample_env
               (sample_query [sample_page_full; sample_page_bare])
               sample_convert_all sample_toMarkdownString sample_moment
               sample_join sample_mkdir_ok sample_write_ok))) =
  List.length [sample_page_full; sample_page_bare].
Proof.
  apply (run_completes_when_nothing_fails sample_env
           (sample_query [sample_page_full; sample_page_bare])
           sample_convert_all sample_toMarkdownString sample_moment
           sample_join sample_mkdir_ok sample_write_ok).
  - reflexivity.
  - reflexivity.
  - reflexivity.
  - intros tr p. reflexivity.
  - intros page _. exists sample_tree. reflexivity.
  - intros tr p d. reflexivity.
Defined.

Lemma run_on_empty_result_witness :
  sample_run sample_env [] =
  ([ DatabasesQuery (to_string (sample_env (js "DATABASE_ID")));
     ConsoleLog (js "Converting 0 post(s)...");
     MkdirSync (js "_posts") ], 0).
Proof.
  apply (run_on_empty_result sample_env (sample_query [])
           sample_pageToMarkdown sample_toMarkdownString sample_moment
           sample_join sample_mkdir_ok sample_write_ok); reflexivity.
Defined.

Lemma run_fails_before_loop_witness :
  run sample_env sample_query_fails sample_pageToMarkdown
    sample_toMarkdownString sample_moment sample_join sample_mkdir_ok
    sample_write_ok =
  ([ DatabasesQuery (to_string (sample_env (js "DATABASE_ID")));
     ConsoleError (js "Export failed:") (External (js "unauthorized")) ],
   1) /\
  run sample_env (sample_query [sample_page_full]) sample_pageToMarkdown
    sample_toMarkdownString sample_moment sample_join sample_mkdir_fails
    sample_write_ok =
  ([ DatabasesQuery (to_string (sample_env (js "DATABASE_ID")));
     ConsoleLog (js "Converting " ++ decimal 1 ++ js " post(s)...");
     ConsoleError (js "Export failed:") (External (js "EEXIST")) ], 1).
Proof.
  split.
  - apply (proj1 (run_fails_before_loop sample_env sample_query_fails
                    sample_pageToMarkdown sample_toMarkdownString
                    sample_moment sample_join sample_mkdir_ok
                    sample_write_ok (External (js "unauthorized"))
                    eq_refl eq_refl)).
    reflexivity.
  - apply (proj2 (run_fails_before_loop sample_env
                    (sample_query [sample_page_full])
                    sample_pageToMarkdown sample_toMarkdownString
                    sample_moment sample_join sample_mkdir_fails
                    sample_write_ok (External (js "EEXIST"))
                    eq_refl eq_refl) [sample_page_full]);
      reflexivity.
Defined.

Lemma run_stops_at_failed_write_witness :
  run sample_env (sample_query [sample_page_full; sample_page_bare])
    sample_convert_all sample_toMarkdownString sample_moment sample_join
    sample_mkdir_ok
    (sample_write_fails_on (js "_posts/2024-05-06-12ab34cd56ef.md")) =
  ((prologue (js "db1") 2 ++
    record_events sample_toMarkdownString sample_moment sample_join
      (js "_posts") sample_page_full (prologue (js "db1") 2) sample_tree) ++
   [ PageToMarkdown (Page.id sample_page_bare);
     ConsoleError (js "Export failed:") (External (js "EACCES")) ], 1).
Proof.
  apply (run_stops_at_failed_write sample_env
           (sample_query [sample_page_full; sample_page_bare])
           sample_convert_all sample_toMarkdownString sample_moment
           sample_join sample_mkdir_ok
           (sample_write_fails_on (js "_posts/2024-05-06-12ab34cd56ef.md"))
           [sample_page_full] [] sample_page_bare _ sample_tree);
    reflexivity.
Defined.

Lemma thumbnail_decides_image_block_witness :
  imageFrontmatter sample_page_bare = [] /\
  imageFrontmatter sample_page_full =
  js "image:" ++ newline ++
  js "  path: " ++ quoted (js "https://img/x.png") ++ newline ++
  js "  alt: " ++ quoted (js "preview image") ++ newline.
Proof.
  split.
  - apply (proj1 (thumbnail_decides_image_block sample_page_bare [])).
    left. left. reflexivity.
  - eapply (proj2 (thumbnail_decides_image_block sample_page_full [])).
    + eexists. split; reflexivity.
    + eexists _, _. split; [reflexivity|].
      split; [reflexivity | discriminate].
Defined.
